(** * apko: deterministic build-and-provenance core

    A shallow embedding of [pkg/sbom/generator/spdx/spdx.go] and
    [pkg/build/build_implementation.go], with the properties the
    specification states about them.

    Go strings are byte sequences; they are modelled as [string], whose
    characters ([ascii]) are exactly the 8-bit bytes.  Raw byte slices and
    file contents are [list byte]. *)

From Stdlib Require Import ZArith Ascii String DecimalString List Bool.
From Stdlib Require Import Lia.
From Stdlib.Strings Require Import Byte.
From stdpp Require Import base option list gmap strings.

Local Open Scope string_scope.
Local Open Scope Z_scope.
Local Open Scope list_scope.

(** ** Go runtime and standard-library pieces used by the sources *)

Module Go.

(** The numeric value of a byte of a string, [s[i]] in Go. *)
Definition byteval (c : ascii) : Z := Z.of_N (N_of_ascii c).

Definition mkbyte (z : Z) : ascii := ascii_of_N (Z.to_N (z mod 256)).

(** [string(b)] for an integer [b]: the UTF-8 encoding of the code point
    [b].  A byte is at most 0xFF, so only the one- and two-byte forms of
    the encoder are reachable. *)
Definition string_of_byte (b : ascii) : string :=
  let r := byteval b in
  if r <? 128 then String b EmptyString
  else String (mkbyte (Z.lor 192 (Z.shiftr r 6)))
         (String (mkbyte (Z.lor 128 (Z.land r 63))) EmptyString).

(** The [%q] verb on a string without characters that need escaping. *)
Definition quote (s : string) : string :=
  String (ascii_of_nat 34) (s +:+ String (ascii_of_nat 34) EmptyString).

(** [fmt.Sprintf("%d", n)]. *)
Definition itoa (n : Z) : string := NilZero.string_of_int (Z.to_int n).

Definition hexDigit (n : N) : ascii :=
  if (n <? 10)%N then ascii_of_N (48 + n) else ascii_of_N (87 + n).

(** [fmt.Sprintf("%x", b)] for a byte slice: two lower-case hexadecimal
    digits per byte. *)
Fixpoint hex (b : list byte) : string :=
  match b with
  | [] => EmptyString
  | x :: b' =>
    let n := Byte.to_N x in
    String (hexDigit (n / 16)) (String (hexDigit (n mod 16)) (hex b'))
  end.

(** [s] without the leading [prefix], when it has one. *)
Fixpoint cutPrefix (prefix s : string) : option string :=
  match prefix, s with
  | EmptyString, _ => Some s
  | String a p', String b s' =>
    if Ascii.eqb a b then cutPrefix p' s' else None
  | String _ _, EmptyString => None
  end.

(** [strings.TrimPrefix]. *)
Definition TrimPrefix (s prefix : string) : string :=
  match cutPrefix prefix s with
  | Some rest => rest
  | None => s
  end.

(** [strings.Contains]. *)
Fixpoint Contains (s substr : string) : bool :=
  match cutPrefix substr s with
  | Some _ => true
  | None =>
    match s with
    | EmptyString => false
    | String _ s' => Contains s' substr
    end
  end.

(** Error values: [errors.New] and the wrapping error that [fmt.Errorf]
    builds for a [%w] verb.  Go compares error values by identity; the
    model compares them structurally, so a sentinel is told apart by its
    message. *)
Inductive error : Type :=
| errorString (s : string)
| wrapError (msg : string) (err : error).

(** [err.Error()]. *)
Definition Error (e : error) : string :=
  match e with
  | errorString s => s
  | wrapError msg _ => msg
  end.

(** [fmt.Errorf(prefix + ": %w", err)], [prefix] already formatted. *)
Definition Errorf (prefix : string) (err : error) : error :=
  wrapError (prefix +:+ ": " +:+ Error err) err.

#[global] Instance error_eq_dec : EqDecision error.
Proof. solve_decision. Defined.

(** [errors.Is(err, target)]: [target] is found along the [Unwrap]
    chain of [err]. *)
Fixpoint Is (err target : error) : bool :=
  if decide (err = target) then true
  else match err with
       | errorString _ => false
       | wrapError _ cause => Is cause target
       end.

(** A value or an error, for functions returning [(T, error)]. *)
Inductive result (A : Type) : Type :=
| Ok (a : A)
| Err (e : error).
Arguments Ok {A} a.
Arguments Err {A} e.

Definition bind {A B} (r : result A) (k : A -> result B) : result B :=
  match r with
  | Ok a => k a
  | Err e => Err e
  end.

End Go.

Notation "x <-! r ;; k" := (Go.bind r (fun x => k))
  (at level 100, r at next level, right associativity, only parsing).

(** *** unicode/utf8 *)

Module utf8.

Definition RuneError : Z := 65533.

(** The [first] table: information about the first byte of an encoding.
    [0xF0] is ASCII ([as]), [0xF1] is invalid ([xx]); otherwise the low
    three bits give the size and the high nibble the accept range. *)
Definition first (s0 : Z) : Z :=
  if s0 <? 128 then 240
  else if s0 <? 194 then 241
  else if s0 <? 224 then 2
  else if s0 =? 224 then 19
  else if s0 <? 237 then 3
  else if s0 =? 237 then 35
  else if s0 <? 240 then 3
  else if s0 =? 240 then 52
  else if s0 <? 244 then 4
  else if s0 =? 244 then 68
  else 241.

(** [acceptRanges]: bounds of the second byte. *)
Definition acceptRanges (i : Z) : Z * Z :=
  if i =? 0 then (128, 191)
  else if i =? 1 then (160, 191)
  else if i =? 2 then (128, 159)
  else if i =? 3 then (144, 191)
  else if i =? 4 then (128, 143)
  else (0, 0).

Definition outside (lo hi b : Z) : bool := (b <? lo) || (hi <? b).

(** [utf8.DecodeRuneInString]: the first rune of [s] and its width. *)
Definition DecodeRuneInString (s : string) : Z * Z :=
  match s with
  | EmptyString => (RuneError, 0)
  | String c0 t0 =>
    let s0 := Go.byteval c0 in
    let x := first s0 in
    if 240 <=? x then
      (if Z.odd x then RuneError else s0, 1)
    else
      let sz := Z.land x 7 in
      let '(lo, hi) := acceptRanges (Z.shiftr x 4) in
      match t0 with
      | EmptyString => (RuneError, 1)
      | String c1 t1 =>
        let s1 := Go.byteval c1 in
        if outside lo hi s1 then (RuneError, 1)
        else if sz <=? 2 then
          (Z.lor (Z.shiftl (Z.land s0 31) 6) (Z.land s1 63), 2)
        else
          match t1 with
          | EmptyString => (RuneError, 1)
          | String c2 t2 =>
            let s2 := Go.byteval c2 in
            if outside 128 191 s2 then (RuneError, 1)
            else if sz <=? 3 then
              (Z.lor (Z.lor (Z.shiftl (Z.land s0 15) 12)
                            (Z.shiftl (Z.land s1 63) 6))
                     (Z.land s2 63), 3)
            else
              match t2 with
              | EmptyString => (RuneError, 1)
              | String c3 _ =>
                let s3 := Go.byteval c3 in
                if outside 128 191 s3 then (RuneError, 1)
                else
                  (Z.lor (Z.lor (Z.lor (Z.shiftl (Z.land s0 7) 18)
                                       (Z.shiftl (Z.land s1 63) 12))
                                (Z.shiftl (Z.land s2 63) 6))
                         (Z.land s3 63), 4)
              end
          end
      end
  end.

End utf8.

(** ** The host operating system, as far as the sources touch it *)

Module os.

(** Files by path, the outcome the system gives to creating, writing and
    inspecting a path, and the wall clock of the machine. *)
Record Host : Type := {
  files : gmap string (list byte);
  createErr : string -> option Go.error;
  writeErr : string -> option Go.error;
  statErr : string -> option Go.error;
  now : Z
}.

Definition setFile (h : Host) (path : string) (data : list byte) : Host :=
  {| files := <[path := data]> (files h);
     createErr := createErr h;
     writeErr := writeErr h;
     statErr := statErr h;
     now := now h |}.

(** [os.Create]: the file is created or truncated; the handle is its
    name. *)
Definition Create (path : string) (h : Host) : Go.result string * Host :=
  match createErr h path with
  | Some e => (Go.Err e, h)
  | None => (Go.Ok path, setFile h path [])
  end.

(** A write to an open file appends to it. *)
Definition Write (name : string) (data : list byte) (h : Host)
  : option Go.error * Host :=
  match writeErr h name with
  | Some e => (Some e, h)
  | None => (None, setFile h name (default [] (files h !! name) ++ data))
  end.

(** [f.Stat()] then [Size()]. *)
Definition StatSize (name : string) (h : Host) : Go.result Z :=
  match statErr h name with
  | Some e => Go.Err e
  | None => Go.Ok (Z.of_nat (length (default [] (files h !! name))))
  end.

End os.

(** ** Input types declared outside the two source files *)

Module time.
(** Modelled from the spec: the declaration of [time.Time] is not in the
    two files; the "fixed source timestamp" is a point in time, here the
    seconds since the Unix epoch. *)
Definition Time : Type := Z.
End time.

Module types.
(** Modelled from the spec: [types.Architecture] is declared in another
    package of the repository; the "architecture" of the build metadata
    is kept as its name. *)
Record Architecture : Type := { s : string }.
Definition String (a : Architecture) : string := s a.
End types.

Module repository.
Module Package.
(** Modelled from the spec: [repository.Package] is declared outside the
    two files.  "ResolvedPackage: name, version, license, maintainer,
    description, origin URL, checksum, architecture"; the fields [Generate]
    reads are kept. *)
Record t : Type := {
  Name : string;
  Version : string;
  License : string;
  Description : string;
  URL : string;
  Maintainer : string;
  Checksum : list byte
}.
End Package.
End repository.

(** Modelled from the spec: [options.Options] of the package
    [chainguard.dev/apko/pkg/sbom/options] is declared outside the two
    files.  "BuildMetadata: image name, tag(s), repository, image digest
    (optional), layer digest, reference string, OS identifier/version,
    architecture, fixed source timestamp"; the fields [Generate] reads are
    kept, an absent value being the empty string as the source tests
    it. *)
Module sbom_options.

Record ImageInfoT : Type := {
  Reference : string;
  Name : string;
  Tag : string;
  Repository : string;
  ImageDigest : string;
  LayerDigest : string;
  Arch : types.Architecture;
  SourceDateEpoch : time.Time
}.

Record OSInfoT : Type := {
  ID : string;
  Version : string
}.

Record Options : Type := {
  OS : OSInfoT;
  ImageInfo : ImageInfoT;
  Packages : list repository.Package.t
}.

End sbom_options.

(** ** pkg/sbom/generator/spdx *)

Module spdx.

(** The character class of [validIDCharsRe = `[^a-zA-Z0-9-.]+`] is the
    complement of [idChar]. *)
Definition idChar (c : ascii) : bool :=
  let b := Go.byteval c in
  ((97 <=? b) && (b <=? 122)) || ((65 <=? b) && (b <=? 90))
  || ((48 <=? b) && (b <=? 57)) || (b =? 45) || (b =? 46).

(** The function literal handed to [ReplaceAllStringFunc]: the loop
    [for i := 0; i < len(s); i++] with its accumulator [r]. *)
Fixpoint escapeLoop (r : string) (s : string) : string :=
  match s with
  | EmptyString => r
  | String b s' =>
    let uc := fst (utf8.DecodeRuneInString (Go.string_of_byte b)) in
    escapeLoop (r +:+ "C" +:+ Go.itoa uc) s'
  end.

Definition escape (s : string) : string := escapeLoop "" s.

(** What replaces a pending match: nothing when no match is open. *)
Definition flush (repl : string -> string) (run : string) : string :=
  match run with
  | EmptyString => EmptyString
  | _ => repl run
  end.

(** [validIDCharsRe.ReplaceAllStringFunc(in, repl)].  The pattern is one
    negated class under [+]: a match is a maximal run of runes outside the
    class.  Every byte of a multi-byte or malformed rune is at least 0x80
    and the class is ASCII, so the runs are the maximal runs of bytes that
    are not [idChar].  [run] is the match being extended. *)
Fixpoint replaceRuns (repl : string -> string) (run : string) (s : string)
  : string :=
  match s with
  | EmptyString => flush repl run
  | String c s' =>
    if idChar c
    then flush repl run +:+ String c (replaceRuns repl EmptyString s')
    else replaceRuns repl (run +:+ String c EmptyString) s'
  end.

Definition ReplaceAllStringFunc (s : string) (repl : string -> string)
  : string := replaceRuns repl EmptyString s.

Definition stringToIdentifier (s : string) : string :=
  ReplaceAllStringFunc s escape.

(** All bytes of a string satisfy [idChar]. *)
Fixpoint allIdChars (s : string) : bool :=
  match s with
  | EmptyString => true
  | String c s' => idChar c && allIdChars s'
  end.

Definition NOASSERTION : string := "NOASSERTION".

Record Checksum : Type := {
  Algorithm : string;
  Value : string
}.

Record ExternalRef : Type := {
  Category : string;
  Locator : string;
  Type_ : string
}.

Module Relationship.
Record t : Type := {
  Element : string;
  Type_ : string;
  Related : string
}.
End Relationship.

Module Package.
Record t : Type := {
  ID : string;
  Name : string;
  Version : string;
  FilesAnalyzed : bool;
  LicenseConcluded : string;
  LicenseDeclared : string;
  Description : string;
  DownloadLocation : string;
  Originator : string;
  SourceInfo : string;
  CopyrightText : string;
  Checksums : list Checksum;
  ExternalRefs : list ExternalRef
}.
End Package.

Record CreationInfo : Type := {
  Created : string;
  Creators : list string;
  LicenseListVersion : string
}.

Module Document.
Record t : Type := {
  ID : string;
  Name : string;
  Version : string;
  CreationInfo : CreationInfo;
  DataLicense : string;
  Namespace : string;
  DocumentDescribes : list string;
  Packages : list Package.t;
  Relationships : list Relationship.t
}.
End Document.

(** What [Generate] calls outside this file: the version stamp of the
    tool, the formatting of the source timestamp, the architecture name
    tables, the package-url printer and the JSON encoder. *)
Class Externals : Type := {
  GitVersion : string;
  FormatRFC3339 : time.Time -> string;
  ToOCIPlatformArchitecture : types.Architecture -> string;
  ToAPK : types.Architecture -> string;
  (** [purl.NewPackageURL(typ, ns, name, version,
      purl.QualifiersFromMap(m), subpath).String()] *)
  purlString :
    string -> string -> string -> string -> gmap string string -> string ->
    string;
  (** [json.Encoder] with two-space indentation. *)
  jsonEncode : Document.t -> Go.result (list byte)
}.

Section Generator.
Context `{Externals}.

Import sbom_options.

(** The qualifier map [mmMain] of the image and layer package-urls. *)
Definition mmMain (opts : Options) : gmap string string :=
  let m0 : gmap string string := ∅ in
  let m1 :=
    if decide (Tag (ImageInfo opts) = "") then m0
    else <["tag" := Tag (ImageInfo opts)]> m0 in
  let m2 :=
    if decide (Repository (ImageInfo opts) = "") then m1
    else <["repository_url" := Repository (ImageInfo opts)]> m1 in
  if decide (types.String (Arch (ImageInfo opts)) = "") then m2
  else <["arch" := ToOCIPlatformArchitecture (Arch (ImageInfo opts))]> m2.

Definition imagePackage (opts : Options) : Package.t :=
  {| Package.ID :=
       stringToIdentifier
         ("SPDXRef-Package-" +:+ ImageDigest (ImageInfo opts));
     Package.Name :=
       Name (ImageInfo opts) +:+ "@" +:+ ImageDigest (ImageInfo opts);
     Package.Version := "";
     Package.FilesAnalyzed := false;
     Package.LicenseConcluded := NOASSERTION;
     Package.LicenseDeclared := NOASSERTION;
     Package.Description := "apko container image";
     Package.DownloadLocation := NOASSERTION;
     Package.Originator := "";
     Package.SourceInfo := "";
     Package.CopyrightText := NOASSERTION;
     Package.Checksums :=
       [ {| Algorithm := "SHA256";
            Value := Go.TrimPrefix (ImageDigest (ImageInfo opts)) "sha256:" |} ];
     Package.ExternalRefs :=
       [ {| Category := "PACKAGE_MANAGER";
            Locator :=
              purlString "oci" "" (Name (ImageInfo opts))
                (ImageDigest (ImageInfo opts)) (mmMain opts) "";
            Type_ := "purl" |} ] |}.

(** [apkPackage] returns a SPDX package describing an apk. *)
Definition apkPackage (opts : Options) (pkg : repository.Package.t)
  : Go.result Package.t :=
  Go.Ok
    {| Package.ID :=
         stringToIdentifier
           ("SPDXRef-Package-" +:+ repository.Package.Name pkg +:+ "-"
              +:+ repository.Package.Version pkg);
       Package.Name := repository.Package.Name pkg;
       Package.Version := repository.Package.Version pkg;
       Package.FilesAnalyzed := false;
       Package.LicenseConcluded := repository.Package.License pkg;
       Package.LicenseDeclared := NOASSERTION;
       Package.Description := repository.Package.Description pkg;
       Package.DownloadLocation := repository.Package.URL pkg;
       Package.Originator := repository.Package.Maintainer pkg;
       Package.SourceInfo := "Package info from apk database";
       Package.CopyrightText := NOASSERTION;
       Package.Checksums :=
         [ {| Algorithm := "SHA1";
              Value := Go.hex (repository.Package.Checksum pkg) |} ];
       Package.ExternalRefs :=
         [ {| Category := "PACKAGE_MANAGER";
              Locator :=
                purlString "apk" (ID (OS opts)) (repository.Package.Name pkg)
                  (repository.Package.Version pkg)
                  (<["arch" := ToAPK (Arch (ImageInfo opts))]> ∅) "";
              Type_ := "purl" |} ] |}.

(** [layerPackage] returns a package describing the layer. *)
Definition layerPackage (opts : Options) : Go.result Package.t :=
  let layerPackageName :=
    if decide (Name (ImageInfo opts) = "") then LayerDigest (ImageInfo opts)
    else Name (ImageInfo opts) +:+ "@" +:+ LayerDigest (ImageInfo opts) in
  let layerPackageName :=
    if decide (Reference (ImageInfo opts) = "") then layerPackageName
    else
      let x :=
        if Go.Contains (Reference (ImageInfo opts)) "/" then ""
        else "index.docker.io/library/" in
      "SPDXRef-" +:+ x +:+ Reference (ImageInfo opts) in
  let mainPkgID := stringToIdentifier layerPackageName in
  Go.Ok
    {| Package.ID := "SPDXRef-Package-" +:+ mainPkgID;
       Package.Name := layerPackageName;
       Package.Version := Version (OS opts);
       Package.FilesAnalyzed := false;
       Package.LicenseConcluded := NOASSERTION;
       Package.LicenseDeclared := NOASSERTION;
       Package.Description := "apko operating system layer";
       Package.DownloadLocation := NOASSERTION;
       Package.Originator := "";
       Package.SourceInfo := "";
       Package.CopyrightText := NOASSERTION;
       Package.Checksums := [];
       Package.ExternalRefs :=
         [ {| Category := "PACKAGE_MANAGER";
              Locator :=
                purlString "oci" "" (Name (ImageInfo opts))
                  (LayerDigest (ImageInfo opts)) (mmMain opts) "";
              Type_ := "purl" |} ] |}.

(** Field updates of the document and of a package under construction. *)
Definition setDocumentDescribes (doc : Document.t) (d : list string)
  : Document.t :=
  {| Document.ID := Document.ID doc;
     Document.Name := Document.Name doc;
     Document.Version := Document.Version doc;
     Document.CreationInfo := Document.CreationInfo doc;
     Document.DataLicense := Document.DataLicense doc;
     Document.Namespace := Document.Namespace doc;
     Document.DocumentDescribes := d;
     Document.Packages := Document.Packages doc;
     Document.Relationships := Document.Relationships doc |}.

Definition appendPackage (doc : Document.t) (p : Package.t) : Document.t :=
  {| Document.ID := Document.ID doc;
     Document.Name := Document.Name doc;
     Document.Version := Document.Version doc;
     Document.CreationInfo := Document.CreationInfo doc;
     Document.DataLicense := Document.DataLicense doc;
     Document.Namespace := Document.Namespace doc;
     Document.DocumentDescribes := Document.DocumentDescribes doc;
     Document.Packages := Document.Packages doc ++ [p];
     Document.Relationships := Document.Relationships doc |}.

Definition appendRelationship (doc : Document.t) (r : Relationship.t)
  : Document.t :=
  {| Document.ID := Document.ID doc;
     Document.Name := Document.Name doc;
     Document.Version := Document.Version doc;
     Document.CreationInfo := Document.CreationInfo doc;
     Document.DataLicense := Document.DataLicense doc;
     Document.Namespace := Document.Namespace doc;
     Document.DocumentDescribes := Document.DocumentDescribes doc;
     Document.Packages := Document.Packages doc;
     Document.Relationships := Document.Relationships doc ++ [r] |}.

Definition setID (p : Package.t) (id : string) : Package.t :=
  {| Package.ID := id;
     Package.Name := Package.Name p;
     Package.Version := Package.Version p;
     Package.FilesAnalyzed := Package.FilesAnalyzed p;
     Package.LicenseConcluded := Package.LicenseConcluded p;
     Package.LicenseDeclared := Package.LicenseDeclared p;
     Package.Description := Package.Description p;
     Package.DownloadLocation := Package.DownloadLocation p;
     Package.Originator := Package.Originator p;
     Package.SourceInfo := Package.SourceInfo p;
     Package.CopyrightText := Package.CopyrightText p;
     Package.Checksums := Package.Checksums p;
     Package.ExternalRefs := Package.ExternalRefs p |}.

(** [fmt.Errorf(prefix + ": %w", err)] on the error branch of a call. *)
Definition wrapped {A} (prefix : string) (r : Go.result A) : Go.result A :=
  match r with
  | Go.Ok a => Go.Ok a
  | Go.Err e => Go.Err (Go.Errorf prefix e)
  end.

Definition contains (element related : string) : Relationship.t :=
  {| Relationship.Element := element;
     Relationship.Type_ := "CONTAINS";
     Relationship.Related := related |}.

(** The body of [for _, pkg := range opts.Packages]. *)
Definition rangeBody (opts : Options) (layerPackage : Package.t)
    (doc : Document.t) (pkg : repository.Package.t) : Go.result Document.t :=
  p <-! wrapped "generating apk package" (apkPackage opts pkg) ;;
  let p :=
    setID p
      (stringToIdentifier
         ("SPDXRef-Package-" +:+ Package.ID layerPackage +:+ "-"
            +:+ repository.Package.Name pkg +:+ "-"
            +:+ repository.Package.Version pkg)) in
  let doc := appendPackage doc p in
  Go.Ok (appendRelationship doc
           (contains (Package.ID layerPackage) (Package.ID p))).

Fixpoint rangePackages (opts : Options) (layerPackage : Package.t)
    (doc : Document.t) (pkgs : list repository.Package.t)
  : Go.result Document.t :=
  match pkgs with
  | [] => Go.Ok doc
  | pkg :: rest =>
    doc' <-! rangeBody opts layerPackage doc pkg ;;
    rangePackages opts layerPackage doc' rest
  end.

(** [Generate] up to the point where the output file is opened: the
    document that is then encoded. *)
Definition document (opts : Options) : Go.result Document.t :=
  let documentName :=
    if decide (LayerDigest (ImageInfo opts) = "") then "sbom"
    else "sbom" +:+ "-" +:+ LayerDigest (ImageInfo opts) in
  let doc :=
    {| Document.ID := "SPDXRef-DOCUMENT";
       Document.Name := documentName;
       Document.Version := "SPDX-2.2";
       Document.CreationInfo :=
         {| Created := FormatRFC3339 (SourceDateEpoch (ImageInfo opts));
            Creators :=
              [ "Tool: apko (" +:+ GitVersion +:+ ")";
                "Organization: Chainguard, Inc" ];
            LicenseListVersion := "3.16" |};
       Document.DataLicense := "CC0-1.0";
       Document.Namespace := "https://spdx.org/spdxdocs/apko/";
       Document.DocumentDescribes := [];
       Document.Packages := [];
       Document.Relationships := [] |} in
  layerPackage <-! wrapped "generating layer spdx package" (layerPackage opts) ;;
  let doc := setDocumentDescribes doc [Package.ID layerPackage] in
  let doc :=
    if decide (ImageDigest (ImageInfo opts) = "") then doc
    else
      let imagePackage := imagePackage opts in
      let doc := setDocumentDescribes doc [Package.ID imagePackage] in
      let doc := appendPackage doc imagePackage in
      appendRelationship doc
        (contains (Package.ID imagePackage) (Package.ID layerPackage)) in
  let doc := appendPackage doc layerPackage in
  rangePackages opts layerPackage doc (Packages opts).

(** [Generate] writes the SBOM in [path]. *)
Definition Generate (opts : Options) (path : string) (h : os.Host)
  : option Go.error * os.Host :=
  match document opts with
  | Go.Err e => (Some e, h)
  | Go.Ok doc =>
    match os.Create path h with
    | (Go.Err e, h1) =>
      (Some (Go.Errorf ("opening SBOM path " +:+ path +:+ " for writing") e),
       h1)
    | (Go.Ok out, h1) =>
      match jsonEncode doc with
      | Go.Err e => (Some (Go.Errorf "encoding spdx sbom" e), h1)
      | Go.Ok data =>
        match os.Write out data h1 with
        | (Some e, h2) => (Some (Go.Errorf "encoding spdx sbom" e), h2)
        | (None, h2) => (None, h2)
        end
      end
    end
  end.

End Generator.

End spdx.

(** ** io, hash, bufio and gzip, as [BuildTarball] composes them *)

Module io.

(** [io.Writer]: a write consumes the whole slice or fails; it may touch
    the files of the host. *)
Class Writer (W : Type) : Type :=
  Write : W -> list byte -> os.Host -> option Go.error * (W * os.Host).

(** An open file ([os.File]), by name. *)
Record File : Type := { Name : string }.

#[global] Instance File_Writer : Writer File :=
  fun f p h =>
    let '(e, h') := os.Write (Name f) p h in (e, (f, h')).

(** [io.MultiWriter(a, b)]: each write goes to [a], then to [b], and
    stops at the first error. *)
Record MultiWriter (A B : Type) : Type := { fst_w : A; snd_w : B }.
Arguments fst_w {A B} _.
Arguments snd_w {A B} _.
Arguments Build_MultiWriter {A B} _ _.

#[global] Instance MultiWriter_Writer {A B} `{Writer A} `{Writer B}
  : Writer (MultiWriter A B) :=
  fun w p h =>
    match Write (fst_w w) p h with
    | (Some e, (a, h1)) => (Some e, (Build_MultiWriter a (snd_w w), h1))
    | (None, (a, h1)) =>
      match Write (snd_w w) p h1 with
      | (e, (b, h2)) => (e, (Build_MultiWriter a b, h2))
      end
    end.

End io.

Module hash.

(** A [hash.Hash] is represented by the bytes it has absorbed; its sum is
    the digest function applied to them. *)
Record Hash : Type := { absorbed : list byte }.

Definition New : Hash := {| absorbed := [] |}.

#[global] Instance Hash_Writer : io.Writer Hash :=
  fun d p h => (None, ({| absorbed := absorbed d ++ p |}, h)).

End hash.

Module bufio.

Record Writer (W : Type) : Type := {
  err : option Go.error;
  buf : list byte;
  size : Z;
  wr : W
}.
Arguments err {W} _.
Arguments buf {W} _.
Arguments size {W} _.
Arguments wr {W} _.
Arguments Build_Writer {W} _ _ _ _.

Definition NewWriterSize {W} (w : W) (size : Z) : Writer W :=
  Build_Writer None [] size w.

Definition Available {W} (b : Writer W) : Z :=
  size b - Z.of_nat (length (buf b)).

Section Ops.
Context {W : Type} `{io.Writer W}.

(** A write straight to the underlying writer, recording its error. *)
Definition direct (b : Writer W) (p : list byte) (h : os.Host)
  : option Go.error * (Writer W * os.Host) :=
  let '(e, (w, h')) := io.Write (wr b) p h in
  (e, (Build_Writer e (buf b) (size b) w, h')).

Definition Flush (b : Writer W) (h : os.Host)
  : option Go.error * (Writer W * os.Host) :=
  match err b with
  | Some e => (Some e, (b, h))
  | None =>
    match buf b with
    | [] => (None, (b, h))
    | _ =>
      match io.Write (wr b) (buf b) h with
      | (Some e, (w, h')) =>
        (Some e, (Build_Writer (Some e) (buf b) (size b) w, h'))
      | (None, (w, h')) => (None, (Build_Writer None [] (size b) w, h'))
      end
    end
  end.

(** The tail of [Write]: the slice fits and is copied into the buffer. *)
Definition store (b : Writer W) (p : list byte) : Writer W :=
  Build_Writer (err b) (buf b ++ p) (size b) (wr b).

(** The [Write] method of the buffered writer.  The loop [for len(p) > b.Available()] runs at
    most twice: once to fill and flush a buffer that holds data, once to
    hand a slice larger than the buffer to the underlying writer. *)
Definition Write (b : Writer W) (p : list byte) (h : os.Host)
  : option Go.error * (Writer W * os.Host) :=
  match err b with
  | Some e => (Some e, (b, h))
  | None =>
    if Z.of_nat (length p) <=? Available b then (None, (store b p, h))
    else
      match buf b with
      | [] => direct b p h
      | _ =>
        let n := Z.to_nat (Available b) in
        match Flush (store b (take n p)) h with
        | (Some e, bh) => (Some e, bh)
        | (None, (b1, h1)) =>
          let p' := drop n p in
          if Z.of_nat (length p') <=? Available b1
          then (None, (store b1 p', h1))
          else direct b1 p' h1
        end
      end
  end.

End Ops.

#[global] Instance Writer_Writer {W} `{io.Writer W} : io.Writer (Writer W) :=
  Write.

End bufio.

Module gzip.

(** The compressor ([pgzip.Writer]) holds what it was given and emits the
    compressed stream, a function [compress] of the whole input, to the
    writer under it when it is closed. *)
Record Writer (W : Type) : Type := {
  input : list byte;
  under : W
}.
Arguments input {W} _.
Arguments under {W} _.
Arguments Build_Writer {W} _ _.

Definition NewWriter {W} (w : W) : Writer W := Build_Writer [] w.

#[global] Instance Writer_Writer {W} : io.Writer (Writer W) :=
  fun z p h => (None, (Build_Writer (input z ++ p) (under z), h)).

Definition Close {W} `{io.Writer W} (compress : list byte -> list byte)
    (z : Writer W) (h : os.Host) : option Go.error * (Writer W * os.Host) :=
  let '(e, (w, h')) := io.Write (under z) (compress (input z)) h in
  (e, (Build_Writer (input z) w, h')).

End gzip.

(** ** pkg/build *)

Module apkfs.
(** Modelled from the spec: [apkfs.FullFS] is declared outside the two
    files.  "Filesystem Tree: root-relative hierarchy of entries (path,
    mode, owner, content or symlink target)". *)
Record Entry : Type := {
  mode : Z;
  uid : Z;
  gid : Z;
  content : list byte;
  linkTarget : option string
}.
(** The root-relative tree under construction, entries by path. *)
Abbreviation FullFS := (gmap string Entry).
End apkfs.

Module tarball.
(** Modelled from the spec: [tarball.Context] is declared outside the two
    files; the encoder "normalizes every archive entry's timestamp to
    fixedTimestamp", the one setting [BuildTarball] gives it. *)
Record Context : Type := { SourceDateEpoch : time.Time }.

(** [tarball.NewContext(tarball.WithSourceDateEpoch(t))]. *)
Definition NewContext (t : time.Time) : Go.result Context :=
  Go.Ok {| SourceDateEpoch := t |}.
End tarball.

Module build.

Import apkfs.

(** Modelled from the spec: [options.Options] of the package
    [chainguard.dev/apko/pkg/options] is declared outside the two files.
    "BuildMetadata: ... tag(s), ... architecture, fixed source timestamp,
    output paths"; the fields the two functions use are kept, with the
    SBOM output path and the architecture as further metadata. *)
Record Options : Type := {
  WorkDir : string;
  TarballPath : string;
  Tags : list string;
  SourceDateEpoch : time.Time;
  SBOMPath : string;
  Arch : types.Architecture
}.

(** Modelled from the spec: [types.ImageConfiguration] is declared in
    another package; [buildImage] reads the "declared services" of its
    entrypoint. *)
Record ImageConfiguration : Type := {
  EntrypointServices : gmap string string
}.

Inductive Level : Type := Info | Warn.

(** The build context [bc]: options, image configuration, working tree
    and what has been logged. *)
Record Context : Type := {
  o : Options;
  ic : ImageConfiguration;
  fs : FullFS;
  logged : list (Level * string)
}.

Definition setTarballPath (opts : Options) (p : string) : Options :=
  {| WorkDir := WorkDir opts;
     TarballPath := p;
     Tags := Tags opts;
     SourceDateEpoch := SourceDateEpoch opts;
     SBOMPath := SBOMPath opts;
     Arch := Arch opts |}.

Definition setTags (opts : Options) (t : list string) : Options :=
  {| WorkDir := WorkDir opts;
     TarballPath := TarballPath opts;
     Tags := t;
     SourceDateEpoch := SourceDateEpoch opts;
     SBOMPath := SBOMPath opts;
     Arch := Arch opts |}.

Definition setO (bc : Context) (opts : Options) : Context :=
  {| o := opts; ic := ic bc; fs := fs bc; logged := logged bc |}.

Definition setFS (bc : Context) (t : FullFS) : Context :=
  {| o := o bc; ic := ic bc; fs := t; logged := logged bc |}.

Definition log (bc : Context) (l : Level) (msg : string) : Context :=
  {| o := o bc; ic := ic bc; fs := fs bc;
     logged := logged bc ++ [(l, msg)] |}.

(** What the two functions call outside their file.  The collaborators
    that work on the tree take it and return it, with their error; they
    read the options and the image configuration. *)
Class Collaborators : Type := {
  (** [bc.apk.FixateWorld(ctx, &bc.o.SourceDateEpoch)] *)
  FixateWorld : time.Time -> FullFS -> option Go.error * FullFS;
  (** [chainguardAPK.AdditionalTags(fsys, *o)] *)
  AdditionalTags : FullFS -> Options -> Go.result (list string);
  mutateAccounts :
    FullFS -> Options -> ImageConfiguration -> option Go.error * FullFS;
  mutatePaths :
    FullFS -> Options -> ImageConfiguration -> option Go.error * FullFS;
  (** The writing half of [GenerateOSRelease]. *)
  writeOSRelease :
    FullFS -> Options -> ImageConfiguration -> option Go.error * FullFS;
  (** [bc.s6.WriteSupervisionTree(bc.ic.Entrypoint.Services)] *)
  WriteSupervisionTree :
    gmap string string -> FullFS -> option Go.error * FullFS;
  (** [bc.apk.GetInstalled()] *)
  GetInstalled : FullFS -> Go.result (list repository.Package.t);
  installBusyboxLinks :
    FullFS -> list repository.Package.t -> option Go.error * FullFS;
  installLdconfigLinks : FullFS -> option Go.error * FullFS;
  installCharDevices : FullFS -> option Go.error * FullFS;
  (** [filepath.Join(bc.o.TempDir(), bc.o.TarballFileName())] *)
  defaultTarballPath : Options -> string;
  (** [tw.WriteTar(ctx, dst, fsys)]: the slices it hands to [dst], in
      order, and the error of the traversal itself. *)
  tarStream : tarball.Context -> FullFS -> list (list byte) * option Go.error;
  (** The gzip stream of an input. *)
  compress : list byte -> list byte;
  (** The SHA-256 digest of an input. *)
  sha256 : list byte -> list byte
}.

(** Modelled from the spec: the sentinel [ErrOSReleaseAlreadyPresent] is
    declared next to [GenerateOSRelease], outside the two files; it is
    the error of the "already present" condition. *)
Definition ErrOSReleaseAlreadyPresent : Go.error :=
  Go.errorString "os-release already present".

Definition osReleasePath : string := "etc/os-release".

(** Modelled from the spec: [GenerateOSRelease] is declared in another
    file of the package.  "Generate an OS-release descriptor file.  If the
    target file already exists, this is a non-fatal condition: log a
    warning and continue without overwriting; any other failure is
    fatal."  The step reports an existing target with the sentinel and
    leaves the tree as it is; otherwise it writes the file, which can
    fail. *)
Definition GenerateOSRelease `{Collaborators} (fsys : FullFS) (opts : Options)
    (conf : ImageConfiguration) : option Go.error * FullFS :=
  match fsys !! osReleasePath with
  | Some _ => (Some ErrOSReleaseAlreadyPresent, fsys)
  | None => writeOSRelease fsys opts conf
  end.

(** Computations of the build: they may fail and they update the
    context in place. *)
Definition M (A : Type) : Type := Context -> Go.result A * Context.

Definition ret {A} (a : A) : M A := fun bc => (Go.Ok a, bc).

Definition bind {A B} (m : M A) (k : A -> M B) : M B :=
  fun bc =>
    match m bc with
    | (Go.Ok a, bc') => k a bc'
    | (Go.Err e, bc') => (Go.Err e, bc')
    end.

(** [if err := m; err != nil { return fmt.Errorf(prefix + ": %w", err) }] *)
Definition errorf {A} (prefix : string) (m : M A) : M A :=
  fun bc =>
    match m bc with
    | (Go.Ok a, bc') => (Go.Ok a, bc')
    | (Go.Err e, bc') => (Go.Err (Go.Errorf prefix e), bc')
    end.

(** A collaborator that works on the tree of the context. *)
Definition onFS (f : Context -> option Go.error * FullFS) : M unit :=
  fun bc =>
    match f bc with
    | (None, t) => (Go.Ok tt, setFS bc t)
    | (Some e, t) => (Go.Err e, setFS bc t)
    end.

Definition Warnf (msg : string) : M unit :=
  fun bc => (Go.Ok tt, log bc Warn msg).

Definition Infof (msg : string) : M unit :=
  fun bc => (Go.Ok tt, log bc Info msg).

Notation "x <- m ;; k" := (bind m (fun x => k))
  (at level 100, m at next level, right associativity, only parsing).
Notation "m ;;; k" := (bind m (fun _ => k))
  (at level 100, right associativity, only parsing).

Section Build.
Context `{Collaborators}.

Definition additionalTags : M unit :=
  fun bc =>
    match AdditionalTags (fs bc) (o bc) with
    | Go.Err e => (Go.Err e, bc)
    | Go.Ok [] => (Go.Ok tt, bc)
    | Go.Ok tags => (Go.Ok tt, setO bc (setTags (o bc) (Tags (o bc) ++ tags)))
    end.

(** The [GenerateOSRelease] statement of [buildImage]: the sentinel is
    logged and swallowed, any other error is returned wrapped. *)
Definition osRelease : M unit :=
  fun bc =>
    match GenerateOSRelease (fs bc) (o bc) (ic bc) with
    | (None, t) => (Go.Ok tt, setFS bc t)
    | (Some e, t) =>
      if Go.Is e ErrOSReleaseAlreadyPresent
      then
        Warnf ("did not generate /etc/os-release: " +:+ Go.Error e)
          (setFS bc t)
      else
        (Go.Err (Go.Errorf "failed to generate /etc/os-release" e),
         setFS bc t)
    end.

Definition getInstalled : M (list repository.Package.t) :=
  fun bc => (GetInstalled (fs bc), bc).

Definition buildImage : M unit :=
  errorf "installing apk packages"
    (onFS (fun bc => FixateWorld (SourceDateEpoch (o bc)) (fs bc))) ;;;
  errorf "adding additional tags" additionalTags ;;;
  errorf "failed to mutate accounts"
    (onFS (fun bc => mutateAccounts (fs bc) (o bc) (ic bc))) ;;;
  errorf "failed to mutate paths"
    (onFS (fun bc => mutatePaths (fs bc) (o bc) (ic bc))) ;;;
  osRelease ;;;
  errorf "failed to write supervision tree"
    (onFS (fun bc => WriteSupervisionTree (EntrypointServices (ic bc)) (fs bc))) ;;;
  installed <- errorf "getting installed packages" getInstalled ;;
  onFS (fun bc => installBusyboxLinks (fs bc) installed) ;;;
  onFS (fun bc => installLdconfigLinks (fs bc)) ;;;
  onFS (fun bc => installCharDevices (fs bc)) ;;;
  fun bc =>
    Infof ("finished building filesystem in " +:+ WorkDir (o bc)) bc.

(** [tw.WriteTar(ctx, dst, fsys)] against a writer: the slices are
    written in order until a write fails; the error of the traversal
    comes last. *)
Fixpoint writeAll {W} `{io.Writer W} (chunks : list (list byte)) (w : W)
    (h : os.Host) : option Go.error * (W * os.Host) :=
  match chunks with
  | [] => (None, (w, h))
  | p :: rest =>
    match io.Write w p h with
    | (Some e, wh) => (Some e, wh)
    | (None, (w', h')) => writeAll rest w' h'
    end
  end.

Definition WriteTar {W} `{io.Writer W} (tw : tarball.Context) (dst : W)
    (fsys : FullFS) (h : os.Host) : option Go.error * (W * os.Host) :=
  let '(chunks, failure) := tarStream tw fsys in
  match writeAll chunks dst h with
  | (Some e, wh) => (Some e, wh)
  | (None, wh) => (failure, wh)
  end.

(** What [BuildTarball] returns on success. *)
Record Tarball : Type := {
  path : string;
  diffid : hash.Hash;
  digest : hash.Hash;
  size : Z
}.

(** [BuildTarball] takes the fully populated working directory and saves
    it to an OCI image layer tar.gz file. *)
Definition BuildTarball (bc : Context) (h : os.Host)
  : Go.result Tarball * (Context * os.Host) :=
  let target :=
    if decide (TarballPath (o bc) = "") then defaultTarballPath (o bc)
    else TarballPath (o bc) in
  match os.Create target h with
  | (Go.Err e, h) =>
    (Go.Err (Go.Errorf "opening the build context tarball path failed" e),
     (bc, h))
  | (Go.Ok name, h) =>
    let outfile := {| io.Name := name |} in
    let bc := setO bc (setTarballPath (o bc) name) in
    match tarball.NewContext (SourceDateEpoch (o bc)) with
    | Go.Err e =>
      (Go.Err (Go.Errorf "failed to construct tarball build context" e),
       (bc, h))
    | Go.Ok tw =>
      let digest := hash.New in
      let buf := bufio.NewWriterSize outfile (Z.shiftl 1 22) in
      let gzw := gzip.NewWriter (io.Build_MultiWriter digest buf) in
      let diffid := hash.New in
      match WriteTar tw (io.Build_MultiWriter diffid gzw) (fs bc) h with
      | (Some e, (_, h)) =>
        (Go.Err (Go.Errorf "failed to generate tarball for image" e), (bc, h))
      | (None, (mw, h)) =>
        let diffid := io.fst_w mw in
        match gzip.Close compress (io.snd_w mw) h with
        | (Some e, (_, h)) =>
          (Go.Err (Go.Errorf "closing gzip writer" e), (bc, h))
        | (None, (gzw, h)) =>
          let digest := io.fst_w (gzip.under gzw) in
          match bufio.Flush (io.snd_w (gzip.under gzw)) h with
          | (Some e, (_, h)) =>
            (Go.Err (Go.Errorf ("flushing " +:+ name) e), (bc, h))
          | (None, (_, h)) =>
            match os.StatSize name h with
            | Go.Err e =>
              (Go.Err (Go.Errorf ("stat(" +:+ Go.quote name +:+ ")") e),
               (bc, h))
            | Go.Ok n =>
              let bc :=
                log bc Info ("built image layer tarball as " +:+ name) in
              (Go.Ok {| path := name; diffid := diffid; digest := digest;
                        size := n |},
               (bc, h))
            end
          end
        end
      end
    end
  end.

End Build.

End build.

(** ** Vocabulary of the properties *)

Module sbom.

Import spdx sbom_options.

Definition packageIDs (doc : Document.t) : list string :=
  map Package.ID (Document.Packages doc).

(** The identifier [Generate] gives the node of a resolved package. *)
Definition apkNodeID (layerID : string) (pkg : repository.Package.t)
  : string :=
  stringToIdentifier
    ("SPDXRef-Package-" +:+ layerID +:+ "-"
       +:+ repository.Package.Name pkg +:+ "-"
       +:+ repository.Package.Version pkg).

(** [p] is the node [Generate] adds for [pkg] under [layer]. *)
Definition isNode `{Externals} (opts : Options) (layer : Package.t)
    (pkg : repository.Package.t) (p : Package.t) : Prop :=
  exists p0, apkPackage opts pkg = Go.Ok p0
             /\ p = setID p0 (apkNodeID (Package.ID layer) pkg).

(** The image node and its edge, present when an image digest is. *)
Definition imageNodes `{Externals} (opts : Options) : list Package.t :=
  if decide (ImageDigest (ImageInfo opts) = "") then []
  else [imagePackage opts].

Definition imageEdges `{Externals} (opts : Options) (layer : Package.t)
  : list Relationship.t :=
  if decide (ImageDigest (ImageInfo opts) = "") then []
  else [contains (Package.ID (imagePackage opts)) (Package.ID layer)].

(** The topmost node of the CONTAINS graph. *)
Definition topID `{Externals} (opts : Options) (layer : Package.t) : string :=
  if decide (ImageDigest (ImageInfo opts) = "") then Package.ID layer
  else Package.ID (imagePackage opts).

(** The split of a combined "algorithm:hex" digest at its first colon,
    as the specification words the image checksum. *)
Fixpoint splitDigest (d : string) : string * string :=
  match d with
  | EmptyString => (EmptyString, EmptyString)
  | String c d' =>
    if Ascii.eqb c ":" then (EmptyString, d')
    else let '(a, h) := splitDigest d' in (String c a, h)
  end.

Definition upper (c : ascii) : ascii :=
  let b := Go.byteval c in
  if (97 <=? b) && (b <=? 122) then Go.mkbyte (b - 32) else c.

Fixpoint toUpper (s : string) : string :=
  match s with
  | EmptyString => EmptyString
  | String c s' => String (upper c) (toUpper s')
  end.

(** The checksum the specification words: algorithm (in the spelling of
    the digest or in capitals) and value are the two parts of the
    split. *)
Definition checksumSplits (d : string) (c : Checksum) : Prop :=
  (Algorithm c = (splitDigest d).1 \/ Algorithm c = toUpper (splitDigest d).1)
  /\ Value c = (splitDigest d).2.

(** Sample collaborators, inputs and packages for the examples. *)
Definition sampleExternals : Externals :=
  {| GitVersion := "v0.0.0";
     FormatRFC3339 := fun t => Go.itoa t;
     ToOCIPlatformArchitecture := types.String;
     ToAPK := types.String;
     purlString := fun typ ns name version _ _ =>
       "pkg:" +:+ typ +:+ "/" +:+ name +:+ "@" +:+ version;
     jsonEncode := fun doc => Go.Ok [] |}.

Definition sampleImageInfo (imageDigest : string) : ImageInfoT :=
  {| Reference := "";
     Name := "example";
     Tag := "latest";
     Repository := "";
     ImageDigest := imageDigest;
     LayerDigest := "sha256:1f";
     Arch := {| types.s := "amd64" |};
     SourceDateEpoch := 0 |}.

Definition busybox : repository.Package.t :=
  {| repository.Package.Name := "busybox";
     repository.Package.Version := "1.36.1-r0";
     repository.Package.License := "GPL-2.0-only";
     repository.Package.Description := "Size optimized toolbox";
     repository.Package.URL := "https://busybox.net/";
     repository.Package.Maintainer := "nobody";
     repository.Package.Checksum := [x0a; xff] |}.

Definition sampleOptions (imageDigest : string)
    (pkgs : list repository.Package.t) : Options :=
  {| OS := {| ID := "alpine"; Version := "3.18" |};
     ImageInfo := sampleImageInfo imageDigest;
     Packages := pkgs |}.

End sbom.

Module pipeline.

Import apkfs build.

(** The state the statements of [buildImage] work on: the context and
    the local variable [installed]. *)
Definition Frame : Type := Context * list repository.Package.t.

(** A statement of [buildImage]: its name, the prefix its error is
    wrapped with, if any, and what it does. *)
Record Step : Type := {
  name : string;
  wrap : option string;
  run : Frame -> option Go.error * Frame
}.

Definition wrapWith (prefix : option string) (e : Go.error) : Go.error :=
  match prefix with
  | Some p => Go.Errorf p e
  | None => e
  end.

Definition lift (m : M unit) : Frame -> option Go.error * Frame :=
  fun f =>
    match m f.1 with
    | (Go.Ok _, bc) => (None, (bc, f.2))
    | (Go.Err e, bc) => (Some e, (bc, f.2))
    end.

Section Steps.
Context `{Collaborators}.

(** The OS-release statement before its error is wrapped. *)
Definition osReleaseBare : M unit :=
  fun bc =>
    match GenerateOSRelease (fs bc) (o bc) (ic bc) with
    | (None, t) => (Go.Ok tt, setFS bc t)
    | (Some e, t) =>
      if Go.Is e ErrOSReleaseAlreadyPresent
      then
        Warnf ("did not generate /etc/os-release: " +:+ Go.Error e)
          (setFS bc t)
      else (Go.Err e, setFS bc t)
    end.

(** The statements of [buildImage], in the order of the source. *)
Definition steps : list Step :=
  [ {| name := "FixateWorld";
       wrap := Some "installing apk packages";
       run := lift (onFS (fun bc =>
                FixateWorld (SourceDateEpoch (o bc)) (fs bc))) |};
    {| name := "additionalTags";
       wrap := Some "adding additional tags";
       run := lift additionalTags |};
    {| name := "mutateAccounts";
       wrap := Some "failed to mutate accounts";
       run := lift (onFS (fun bc => mutateAccounts (fs bc) (o bc) (ic bc))) |};
    {| name := "mutatePaths";
       wrap := Some "failed to mutate paths";
       run := lift (onFS (fun bc => mutatePaths (fs bc) (o bc) (ic bc))) |};
    {| name := "GenerateOSRelease";
       wrap := Some "failed to generate /etc/os-release";
       run := lift osReleaseBare |};
    {| name := "WriteSupervisionTree";
       wrap := Some "failed to write supervision tree";
       run := lift (onFS (fun bc =>
                WriteSupervisionTree (EntrypointServices (ic bc)) (fs bc))) |};
    {| name := "GetInstalled";
       wrap := Some "getting installed packages";
       run := fun f =>
         match GetInstalled (fs f.1) with
         | Go.Ok installed => (None, (f.1, installed))
         | Go.Err e => (Some e, f)
         end |};
    {| name := "installBusyboxLinks";
       wrap := None;
       run := fun f =>
         lift (onFS (fun bc => installBusyboxLinks (fs bc) f.2)) f |};
    {| name := "installLdconfigLinks";
       wrap := None;
       run := lift (onFS (fun bc => installLdconfigLinks (fs bc))) |};
    {| name := "installCharDevices";
       wrap := None;
       run := lift (onFS (fun bc => installCharDevices (fs bc))) |} ].

(** The statements run in order; the first error ends the run. *)
Fixpoint runSteps (ss : list Step) (f : Frame) : option Go.error * Frame :=
  match ss with
  | [] => (None, f)
  | s :: rest =>
    match run s f with
    | (Some e, f') => (Some (wrapWith (wrap s) e), f')
    | (None, f') => runSteps rest f'
    end
  end.

(** The end of [buildImage] after a run of statements. *)
Definition finish (r : option Go.error * Frame) : Go.result unit * Context :=
  match r with
  | (Some e, f) => (Go.Err e, f.1)
  | (None, f) =>
    Infof ("finished building filesystem in " +:+ WorkDir (o f.1)) f.1
  end.

End Steps.

(** The metadata fields other than the tag list and the tarball path. *)
Definition sameMetadata (o1 o2 : Options) : Prop :=
  WorkDir o1 = WorkDir o2
  /\ SourceDateEpoch o1 = SourceDateEpoch o2
  /\ SBOMPath o1 = SBOMPath o2
  /\ Arch o1 = Arch o2.

(** The tag list has only grown, at its end. *)
Definition appendsTags (o1 o2 : Options) : Prop :=
  exists extra, Tags o2 = Tags o1 ++ extra.

(** What a statement of [buildImage] may do to the metadata. *)
Definition keeps (c1 c2 : Context) : Prop :=
  sameMetadata (o c1) (o c2)
  /\ TarballPath (o c1) = TarballPath (o c2)
  /\ appendsTags (o c1) (o c2)
  /\ ic c1 = ic c2.

(** [e] is [cause] wrapped with some message. *)
Definition wraps (e cause : Go.error) : Prop :=
  exists msg, e = Go.wrapError msg cause.

(** Sample collaborators: every tree step leaves a file behind; the
    account, linker-cache and OS-release steps fail on request. *)
Definition entry (data : string) : Entry :=
  {| mode := 420; uid := 0; gid := 0;
     content := list_byte_of_string data;
     linkTarget := None |}.

Definition touch (p : string) (t : FullFS) : option Go.error * FullFS :=
  (None, <[p := entry p]> t).

Definition failing (fails : bool) (msg : string) (p : string) (t : FullFS)
  : option Go.error * FullFS :=
  if fails then (Some (Go.errorString msg), t) else touch p t.

Definition sampleCollaborators (failAccounts failLdconfig failOSRelease : bool)
  : Collaborators :=
  {| FixateWorld := fun _ => touch "lib/apk/db/installed";
     AdditionalTags := fun _ _ => Go.Ok ["example:1.36.1-r0"];
     mutateAccounts := fun t _ _ =>
       failing failAccounts "unable to open /etc/passwd" "etc/passwd" t;
     mutatePaths := fun t _ _ => touch "var/data" t;
     writeOSRelease := fun t _ _ =>
       failing failOSRelease "read-only file system" osReleasePath t;
     WriteSupervisionTree := fun _ => touch "sv/run";
     GetInstalled := fun _ => Go.Ok [sbom.busybox];
     installBusyboxLinks := fun t _ => touch "bin/sh" t;
     installLdconfigLinks :=
       failing failLdconfig "ldconfig: no such file" "lib/ld.so";
     installCharDevices := touch "dev/null";
     defaultTarballPath := fun opts =>
       "/tmp/apko/" +:+ types.String (Arch opts) +:+ ".tar.gz";
     tarStream := fun tw t =>
       (map (fun kv => list_byte_of_string kv.1 ++ content kv.2)
            (map_to_list t)
        ++ [list_byte_of_string (Go.itoa (tarball.SourceDateEpoch tw))],
        None);
     compress := fun data => [x1f; x8b] ++ data;
     sha256 := fun data =>
       match Byte.of_N (N.of_nat (length data) mod 256) with
       | Some b => [b]
       | None => []
       end |}.

Definition sampleBuildOptions (tarballPath : string) : Options :=
  {| WorkDir := "/work";
     TarballPath := tarballPath;
     Tags := ["example:latest"];
     SourceDateEpoch := 1700000000;
     SBOMPath := "/out";
     Arch := {| types.s := "amd64" |} |}.

Definition sampleContext (tarballPath : string) (t : FullFS) : Context :=
  {| o := sampleBuildOptions tarballPath;
     ic := {| EntrypointServices := ∅ |};
     fs := t;
     logged := [] |}.

(** What a buffered writer over a file stands for: the file followed by
    the buffer, with no error recorded. *)
Definition holds (b : bufio.Writer io.File) (h : os.Host) (c : list byte)
  : Prop :=
  bufio.err b = None
  /\ exists d, os.files h !! io.Name (bufio.wr b) = Some d
               /\ c = d ++ bufio.buf b.

(** The tar stream of the tree of a build context under its source
    timestamp, and the archive: its compressed form. *)
Definition tarBytes `{Collaborators} (bc : Context) : list byte :=
  concat
    (tarStream {| tarball.SourceDateEpoch := SourceDateEpoch (o bc) |}
       (fs bc)).1.

Definition archive `{Collaborators} (bc : Context) : list byte :=
  compress (tarBytes bc).

(** The path [BuildTarball] opens. *)
Definition target `{Collaborators} (bc : Context) : string :=
  if decide (TarballPath (o bc) = "") then defaultTarballPath (o bc)
  else TarballPath (o bc).

(** A host where every operation succeeds, at a given wall-clock time. *)
Definition sampleHost (clock : Z) : os.Host :=
  {| os.files := ∅;
     os.createErr := fun _ => None;
     os.writeErr := fun _ => None;
     os.statErr := fun _ => None;
     os.now := clock |}.

End pipeline.

(** ** Vocabulary of the identifier properties *)

Module ident.

Import spdx.

(** What the transform makes of one byte: the byte itself when the
    pattern does not match it, else "C" and the decimal value of the
    byte. *)
Definition escapeByte (c : ascii) : string :=
  if idChar c then String c EmptyString
  else "C" +:+ Go.itoa (Go.byteval c).

(** The bytes of a string, each one transformed on its own. *)
Fixpoint bytewise (s : string) : string :=
  match s with
  | EmptyString => EmptyString
  | String c s' => escapeByte c +:+ bytewise s'
  end.

(** A run of bytes, every one escaped. *)
Fixpoint escapeAll (run : string) : string :=
  match run with
  | EmptyString => EmptyString
  | String b run' => ("C" +:+ Go.itoa (Go.byteval b)) +:+ escapeAll run'
  end.

End ident.

(** ** Vocabulary of the node properties *)

Module nodes.

Import spdx sbom_options.

Definition isLowerHex (c : ascii) : bool :=
  let b := Go.byteval c in
  ((48 <=? b) && (b <=? 57)) || ((97 <=? b) && (b <=? 102)).

Fixpoint allLowerHex (s : string) : bool :=
  match s with
  | EmptyString => true
  | String c s' => isLowerHex c && allLowerHex s'
  end.

(** The one external reference every node carries. *)
Definition isPurlRef (r : ExternalRef) : Prop :=
  Category r = "PACKAGE_MANAGER" /\ Type_ r = "purl".

(** The number of image nodes: one when an image digest is present. *)
Definition imageCount (opts : Options) : nat :=
  if decide (ImageDigest (ImageInfo opts) = "") then 0%nat else 1%nat.

End nodes.

(** ** pkg/build: the index file *)

Module oci.
(** Modelled from the spec: [oci.SignedImageIndex] is an interface of a
    library outside the files; [WriteIndex] calls its [RawManifest], "an
    externally-supplied image-index document's raw bytes", which can
    fail. *)
Record SignedImageIndex : Type := {
  RawManifest : Go.result (list byte)
}.
End oci.

Module build_index.

Import apkfs build.

(** What [WriteIndex] calls outside its file. *)
Class Paths : Type := {
  (** [bc.o.TempDir()] *)
  TempDir : Options -> string;
  (** [filepath.Join] *)
  Join : string -> string -> string
}.

(** [os.WriteFile(name, data, perm)]: the file is created or truncated,
    then written. *)
Definition WriteFile (name : string) (data : list byte) (h : os.Host)
  : option Go.error * os.Host :=
  match os.Create name h with
  | (Go.Err e, h) => (Some e, h)
  | (Go.Ok f, h) => os.Write f data h
  end.

Section Index.
Context `{Paths}.

(** [WriteIndex] saves the index file from the given image
    configuration. *)
Definition WriteIndex (idx : oci.SignedImageIndex) (bc : Context)
    (h : os.Host) : Go.result (string * Z) * (Context * os.Host) :=
  let outfile := Join (TempDir (o bc)) "index.json" in
  match oci.RawManifest idx with
  | Go.Err e => (Go.Err (Go.Errorf "getting raw manifest" e), (bc, h))
  | Go.Ok b =>
    match WriteFile outfile b h with
    | (Some e, h) => (Go.Err (Go.Errorf "writing index file" e), (bc, h))
    | (None, h) =>
      match os.StatSize outfile h with
      | Go.Err e =>
        (Go.Err (Go.Errorf ("stat(" +:+ Go.quote outfile +:+ ")") e), (bc, h))
      | Go.Ok n =>
        (Go.Ok (outfile, n),
         (log bc Info ("built index file as " +:+ outfile), h))
      end
    end
  end.

End Index.

(** Sample paths and a sample index. *)
Definition samplePaths : Paths :=
  {| TempDir := fun _ => "/tmp/apko";
     Join := fun a b => a +:+ "/" +:+ b |}.

Definition sampleIndex : oci.SignedImageIndex :=
  {| oci.RawManifest := Go.Ok [x7b; x7d] |}.

End build_index.

(** ** Vocabulary of the host properties *)

Module hosts.

(** Two states of the host that differ at most in one file. *)
Definition sameElsewhere (name : string) (h h' : os.Host) : Prop :=
  os.createErr h' = os.createErr h
  /\ os.writeErr h' = os.writeErr h
  /\ os.statErr h' = os.statErr h
  /\ os.now h' = os.now h
  /\ (forall q, q <> name -> os.files h' !! q = os.files h !! q)
  /\ (is_Some (os.files h !! name) -> is_Some (os.files h' !! name)).

(** A host that refuses to create files. *)
Definition readOnlyHost : os.Host :=
  {| os.files := ∅;
     os.createErr := fun _ => Some (Go.errorString "read-only file system");
     os.writeErr := fun _ => None;
     os.statErr := fun _ => None;
     os.now := 0 |}.

(** A host on which files are created but no write goes through. *)
Definition fullHost : os.Host :=
  {| os.files := ∅;
     os.createErr := fun _ => None;
     os.writeErr := fun _ => Some (Go.errorString "no space left on device");
     os.statErr := fun _ => None;
     os.now := 0 |}.

End hosts.

(** ** Vocabulary of the document properties *)

Module header.

Import spdx.

(** Two documents with the same header: everything but the described
    identifiers, the nodes and the relationships. *)
Definition sameHeader (d d' : Document.t) : Prop :=
  Document.ID d' = Document.ID d
  /\ Document.Name d' = Document.Name d
  /\ Document.Version d' = Document.Version d
  /\ Document.CreationInfo d' = Document.CreationInfo d
  /\ Document.DataLicense d' = Document.DataLicense d
  /\ Document.Namespace d' = Document.Namespace d.


End header.

(** * Properties *)

(** ** Strings *)

Lemma append_nil_l (b : string) : EmptyString +:+ b = b.
Proof. reflexivity. Qed.

Lemma append_cons (x : ascii) (a b : string) :
  String x a +:+ b = String x (a +:+ b).
Proof. reflexivity. Qed.

Create Rewrite HintDb gostring.
#[global] Hint Rewrite append_nil_l append_cons : gostring.

Lemma append_assoc (a b c : string) : (a +:+ b) +:+ c = a +:+ (b +:+ c).
Proof.
  induction a as [|x a IH]; autorewrite with gostring;
    [reflexivity | now rewrite IH].
Qed.

Lemma append_empty_r (a : string) : a +:+ EmptyString = a.
Proof.
  induction a as [|x a IH]; autorewrite with gostring;
    [reflexivity | now rewrite IH].
Qed.

(** ** The identifier transform *)

Section Identifier.

Import spdx.

Lemma allIdChars_app (a b : string) :
  allIdChars (a +:+ b) = allIdChars a && allIdChars b.
Proof.
  induction a as [|x a IH]; autorewrite with gostring; simpl; [reflexivity|].
  rewrite IH. now rewrite andb_assoc.
Qed.

Lemma uint_idChars (d : Decimal.uint) :
  allIdChars (NilEmpty.string_of_uint d) = true.
Proof. induction d; simpl; auto. Qed.

(** A printed integer is made of digits and at most a minus sign. *)
Lemma itoa_idChars (n : Z) : allIdChars (Go.itoa n) = true.
Proof.
  unfold Go.itoa, NilZero.string_of_int, NilZero.string_of_uint.
  destruct (Z.to_int n) as [d|d]; destruct d; simpl; auto using uint_idChars.
Qed.

Lemma escapeLoop_idChars (s r : string) :
  allIdChars r = true -> allIdChars (escapeLoop r s) = true.
Proof.
  revert r. induction s as [|b s IH]; intros r Hr; simpl; [exact Hr|].
  apply IH. rewrite !allIdChars_app, Hr, itoa_idChars. reflexivity.
Qed.

Lemma flush_escape_idChars (run : string) :
  allIdChars (flush escape run) = true.
Proof.
  destruct run; simpl; [reflexivity|].
  unfold escape. now apply escapeLoop_idChars.
Qed.

Lemma replaceRuns_idChars (s run : string) :
  allIdChars (replaceRuns escape run s) = true.
Proof.
  revert run. induction s as [|c s IH]; intros run; simpl.
  - apply flush_escape_idChars.
  - destruct (idChar c) eqn:Hc.
    + rewrite allIdChars_app, flush_escape_idChars. simpl.
      now rewrite Hc, IH.
    + apply IH.
Qed.

(** Where the pattern finds no match the input comes back as it is. *)
Lemma replaceRuns_fixed (repl : string -> string) (s : string) :
  allIdChars s = true -> replaceRuns repl EmptyString s = s.
Proof.
  induction s as [|c s IH]; simpl; [reflexivity|].
  intros Hs. apply andb_prop in Hs as [Hc Hs].
  rewrite Hc. simpl. autorewrite with gostring. now rewrite IH.
Qed.

(** Each byte of a run is escaped on its own: the loop distributes over
    the bytes of its argument. *)
Lemma escapeLoop_app (s r : string) :
  escapeLoop r s = r +:+ escapeLoop EmptyString s.
Proof.
  revert r. induction s as [|b s IH]; intros r; simpl.
  - now rewrite append_empty_r.
  - rewrite IH. rewrite (IH (EmptyString +:+ _)).
    autorewrite with gostring. now rewrite !append_assoc.
Qed.

(** Converting a byte to a string and decoding it again gives the value
    of the byte, for all 256 bytes. *)
Lemma decode_string_of_byte (b : ascii) :
  fst (utf8.DecodeRuneInString (Go.string_of_byte b)) = Go.byteval b.
Proof.
  destruct b as [[] [] [] [] [] [] [] []]; vm_compute; reflexivity.
Qed.

(** C3: the transform turns "Hello World!" into "HelloC32WorldC33", the
    space and the exclamation mark each becoming "C" and the decimal code
    point; the two bytes of "é" (0xC3 0xA9) are escaped one by one, giving
    the two segments "C195" and "C169" and not the single "C233". *)
Theorem stringToIdentifier_concrete :
  stringToIdentifier "Hello World!" = "HelloC32WorldC33"
  /\ Go.itoa (Go.byteval " ") = "32" /\ Go.itoa (Go.byteval "!") = "33"
  /\ (let e_acute := String (ascii_of_nat 195) (String (ascii_of_nat 169) "") in
      utf8.DecodeRuneInString e_acute = (233, 2)
      /\ stringToIdentifier e_acute = "C195" +:+ "C169"
      /\ stringToIdentifier e_acute <> "C233").
Proof.
  repeat split; try reflexivity.
  vm_compute. discriminate.
Qed.

(** C10: for every input the transform's output consists of characters
    of [a-zA-Z0-9.-] only, and so the transform is idempotent. *)
Theorem stringToIdentifier_allowed_idempotent (s : string) :
  allIdChars (stringToIdentifier s) = true
  /\ stringToIdentifier (stringToIdentifier s) = stringToIdentifier s.
Proof.
  assert (Hout : allIdChars (stringToIdentifier s) = true)
    by apply replaceRuns_idChars.
  split; [exact Hout|].
  unfold stringToIdentifier at 1. unfold ReplaceAllStringFunc.
  now apply replaceRuns_fixed.
Qed.

End Identifier.

(** ** The SBOM graph *)

Section Graph.

Import spdx sbom_options sbom.
Context `{Externals}.

Lemma layerPackage_ok (opts : Options) :
  exists layer, layerPackage opts = Go.Ok layer.
Proof. unfold layerPackage. eauto. Qed.

Lemma apkPackage_ok (opts : Options) (pkg : repository.Package.t) :
  exists p0, apkPackage opts pkg = Go.Ok p0.
Proof. unfold apkPackage. eauto. Qed.

(** One turn of the loop adds one node and the edge from the layer to
    it, and touches nothing else. *)
Lemma rangeBody_spec (opts : Options) (layer : Package.t) (doc : Document.t)
    (pkg : repository.Package.t) :
  exists p, isNode opts layer pkg p
    /\ rangeBody opts layer doc pkg =
       Go.Ok (appendRelationship (appendPackage doc p)
                (contains (Package.ID layer) (Package.ID p))).
Proof.
  destruct (apkPackage_ok opts pkg) as [p0 Hp0].
  exists (setID p0 (apkNodeID (Package.ID layer) pkg)). split.
  - exists p0. auto.
  - unfold rangeBody. rewrite Hp0. reflexivity.
Qed.

(** The loop over the resolved packages, by induction on the list. *)
Lemma rangePackages_spec (opts : Options) (layer : Package.t)
    (pkgs : list repository.Package.t) :
  forall doc, exists nodes doc',
    rangePackages opts layer doc pkgs = Go.Ok doc'
    /\ Forall2 (isNode opts layer) pkgs nodes
    /\ Document.Packages doc' = Document.Packages doc ++ nodes
    /\ Document.Relationships doc' =
       Document.Relationships doc
         ++ map (fun p => contains (Package.ID layer) (Package.ID p)) nodes
    /\ Document.DocumentDescribes doc' = Document.DocumentDescribes doc.
Proof.
  induction pkgs as [|pkg rest IH]; intros doc.
  - exists [], doc. simpl. rewrite !app_nil_r. repeat split; constructor.
  - destruct (rangeBody_spec opts layer doc pkg) as (p & Hp & Hbody).
    destruct (IH (appendRelationship (appendPackage doc p)
                    (contains (Package.ID layer) (Package.ID p))))
      as (nodes & doc' & Hrun & Hnodes & Hpk & Hrel & Hdesc).
    exists (p :: nodes), doc'. cbn [rangePackages]. rewrite Hbody.
    cbn [Go.bind]. split; [exact Hrun|]. split; [constructor; assumption|].
    rewrite Hpk, Hrel, Hdesc. simpl. rewrite <- !app_assoc. auto.
Qed.

(** The shape of every document [Generate] encodes. *)
Lemma document_shape (opts : Options) :
  exists layer nodes doc,
    layerPackage opts = Go.Ok layer
    /\ document opts = Go.Ok doc
    /\ Forall2 (isNode opts layer) (Packages opts) nodes
    /\ Document.Packages doc = imageNodes opts ++ layer :: nodes
    /\ Document.Relationships doc =
       imageEdges opts layer
         ++ map (fun p => contains (Package.ID layer) (Package.ID p)) nodes
    /\ Document.DocumentDescribes doc = [topID opts layer].
Proof.
  destruct (layerPackage_ok opts) as [layer Hlayer].
  unfold document, imageNodes, imageEdges, topID. rewrite Hlayer. simpl.
  destruct (decide (ImageDigest (ImageInfo opts) = "")) as [Hd|Hd].
  - match goal with
    | |- context [rangePackages opts layer ?d _] =>
      destruct (rangePackages_spec opts layer (Packages opts) d)
        as (nodes & doc' & Hrun & Hnodes & Hpk & Hrel & Hdesc)
    end.
    exists layer, nodes, doc'. simpl in *. auto 10.
  - match goal with
    | |- context [rangePackages opts layer ?d _] =>
      destruct (rangePackages_spec opts layer (Packages opts) d)
        as (nodes & doc' & Hrun & Hnodes & Hpk & Hrel & Hdesc)
    end.
    exists layer, nodes, doc'. simpl in *.
    rewrite Hpk, Hrel, Hdesc. auto 10.
Qed.

(** C2: [Generate] always builds a document; in it both ends of every
    relationship are identifiers of package nodes of the document, and
    documentDescribes holds exactly one identifier, the image node's when
    an image digest is present and the layer node's otherwise, itself a
    node of the document. *)
Theorem sbom_closure (opts : Options) :
  exists layer doc,
    layerPackage opts = Go.Ok layer
    /\ document opts = Go.Ok doc
    /\ (forall r, In r (Document.Relationships doc) ->
          In (Relationship.Element r) (packageIDs doc)
          /\ In (Relationship.Related r) (packageIDs doc))
    /\ Document.DocumentDescribes doc =
       [ if decide (ImageDigest (ImageInfo opts) = "")
         then Package.ID layer
         else Package.ID (imagePackage opts) ]
    /\ (forall d, In d (Document.DocumentDescribes doc) ->
          In d (packageIDs doc)).
Proof.
  destruct (document_shape opts)
    as (layer & nodes & doc & Hlayer & Hdoc & _ & Hpk & Hrel & Hdesc).
  exists layer, doc. split; [exact Hlayer|]. split; [exact Hdoc|].
  assert (Hl : In (Package.ID layer) (packageIDs doc)).
  { unfold packageIDs. rewrite Hpk, map_app. apply in_or_app. right.
    simpl. auto. }
  unfold imageNodes, imageEdges, topID in *.
  split; [|split].
  - intros r Hr. rewrite Hrel in Hr. apply in_app_or in Hr as [Hr|Hr].
    + destruct (decide (ImageDigest (ImageInfo opts) = "")) as [Hd|Hd];
        simpl in Hr; [contradiction|].
      destruct Hr as [<-|[]]. simpl. split; [|exact Hl].
      unfold packageIDs. rewrite Hpk. simpl. auto.
    + apply in_map_iff in Hr as (p & <- & Hp). simpl. split; [exact Hl|].
      unfold packageIDs. rewrite Hpk, map_app. apply in_or_app. right.
      simpl. right. now apply in_map.
  - exact Hdesc.
  - intros d Hd. rewrite Hdesc in Hd. destruct Hd as [<-|[]].
    destruct (decide (ImageDigest (ImageInfo opts) = "")); [exact Hl|].
    unfold packageIDs. rewrite Hpk. simpl. auto.
Qed.

(** C6: with exactly one resolved package and an image digest, the
    document has exactly the three nodes image, layer and package, and
    exactly the two CONTAINS relationships image to layer and layer to
    package. *)
Theorem scenario_B (opts : Options) (pkg : repository.Package.t) :
  ImageDigest (ImageInfo opts) <> "" ->
  Packages opts = [pkg] ->
  exists layer p doc,
    layerPackage opts = Go.Ok layer
    /\ isNode opts layer pkg p
    /\ document opts = Go.Ok doc
    /\ Document.Packages doc = [imagePackage opts; layer; p]
    /\ Document.Relationships doc =
       [ {| Relationship.Element := Package.ID (imagePackage opts);
            Relationship.Type_ := "CONTAINS";
            Relationship.Related := Package.ID layer |};
         {| Relationship.Element := Package.ID layer;
            Relationship.Type_ := "CONTAINS";
            Relationship.Related := Package.ID p |} ].
Proof.
  intros Hd Hpkgs.
  destruct (document_shape opts)
    as (layer & nodes & doc & Hlayer & Hdoc & Hnodes & Hpk & Hrel & _).
  rewrite Hpkgs in Hnodes.
  inversion Hnodes as [|? p ? ps Hp Hrest]; subst.
  inversion Hrest; subst.
  exists layer, p, doc.
  unfold imageNodes, imageEdges in *.
  destruct (decide (ImageDigest (ImageInfo opts) = "")); [contradiction|].
  simpl in *. auto 10.
Qed.

(** C7: with no resolved package and no image digest, the document has
    exactly one package node, the layer, and no relationship. *)
Theorem scenario_A (opts : Options) :
  ImageDigest (ImageInfo opts) = "" ->
  Packages opts = [] ->
  exists layer doc,
    layerPackage opts = Go.Ok layer
    /\ document opts = Go.Ok doc
    /\ Document.Packages doc = [layer]
    /\ Document.Relationships doc = [].
Proof.
  intros Hd Hpkgs.
  destruct (document_shape opts)
    as (layer & nodes & doc & Hlayer & Hdoc & Hnodes & Hpk & Hrel & _).
  rewrite Hpkgs in Hnodes. inversion Hnodes; subst.
  exists layer, doc.
  unfold imageNodes, imageEdges in *.
  destruct (decide (ImageDigest (ImageInfo opts) = "")); [|contradiction].
  simpl in *. auto.
Qed.

End Graph.

(** ** The image checksum *)

Section ImageChecksum.

Import spdx sbom_options sbom.

Lemma TrimPrefix_sha256 (hex : string) :
  Go.TrimPrefix ("sha256:" +:+ hex) "sha256:" = hex.
Proof. reflexivity. Qed.

Lemma splitDigest_sha256 (hex : string) :
  splitDigest ("sha256:" +:+ hex) = ("sha256", hex).
Proof. reflexivity. Qed.

(** C8, as it holds: with an image digest the document has the image
    node, at its head, whose checksum list is the one entry of algorithm
    "SHA256" and of value the digest less a leading "sha256:"; for a
    digest "sha256:hex" that is the split of the digest, the algorithm in
    capitals.  Without an image digest the document is built all the
    same, with the layer node at its head and no image node. *)
Theorem image_checksum `{Externals} (opts : Options) :
  exists layer nodes doc,
    layerPackage opts = Go.Ok layer
    /\ document opts = Go.Ok doc
    /\ Forall2 (isNode opts layer) (Packages opts) nodes
    /\ (ImageDigest (ImageInfo opts) <> "" ->
          Document.Packages doc = imagePackage opts :: layer :: nodes
          /\ Package.Checksums (imagePackage opts) =
             [ {| Algorithm := "SHA256";
                  Value :=
                    Go.TrimPrefix (ImageDigest (ImageInfo opts)) "sha256:" |} ]
          /\ (forall hex, ImageDigest (ImageInfo opts) = "sha256:" +:+ hex ->
                exists c, Package.Checksums (imagePackage opts) = [c]
                          /\ Value c = hex
                          /\ checksumSplits (ImageDigest (ImageInfo opts)) c))
    /\ (ImageDigest (ImageInfo opts) = "" ->
          Document.Packages doc = layer :: nodes).
Proof.
  destruct (document_shape opts)
    as (layer & nodes & doc & Hlayer & Hdoc & Hnodes & Hpk & _ & _).
  exists layer, nodes, doc. repeat (split; [assumption|]).
  unfold imageNodes in Hpk.
  destruct (decide (ImageDigest (ImageInfo opts) = "")) as [Hd|Hd];
    (split; [intros Hd'|intros Hd']); try contradiction; try exact Hpk.
  split; [exact Hpk|]. split; [reflexivity|].
  intros hex Hhex. eexists. split; [reflexivity|]. simpl.
  unfold checksumSplits. simpl. rewrite Hhex.
  rewrite TrimPrefix_sha256, splitDigest_sha256. simpl. auto.
Qed.

(** The image digest "sha512:abcd" is not split: the node says "SHA256"
    and keeps the whole string as the value. *)
Lemma image_checksum_not_split :
  let opts := sampleOptions "sha512:abcd" [] in
  ImageDigest (ImageInfo opts) <> ""
  /\ (exists doc, @document sampleExternals opts = Go.Ok doc
        /\ In (@imagePackage sampleExternals opts) (Document.Packages doc))
  /\ Package.Checksums (@imagePackage sampleExternals opts) =
     [ {| Algorithm := "SHA256"; Value := "sha512:abcd" |} ]
  /\ ~ (exists c, Package.Checksums (@imagePackage sampleExternals opts) = [c]
          /\ checksumSplits (ImageDigest (ImageInfo opts)) c).
Proof.
  cbv zeta. split; [discriminate|]. split; [|split].
  - eexists. split; [vm_compute; reflexivity|]. simpl. auto.
  - reflexivity.
  - intros (c & Hc & _ & Hv). vm_compute in Hc.
    injection Hc as <-. vm_compute in Hv. discriminate.
Qed.

Lemma image_checksum_witness :
  let opts := sampleOptions "sha256:abcd" [busybox] in
  exists layer nodes doc,
    @layerPackage sampleExternals opts = Go.Ok layer
    /\ @document sampleExternals opts = Go.Ok doc
    /\ Forall2 (@isNode sampleExternals opts layer) (Packages opts) nodes
    /\ (ImageDigest (ImageInfo opts) <> "" ->
          Document.Packages doc
          = @imagePackage sampleExternals opts :: layer :: nodes
          /\ Package.Checksums (@imagePackage sampleExternals opts) =
             [ {| Algorithm := "SHA256";
                  Value :=
                    Go.TrimPrefix (ImageDigest (ImageInfo opts)) "sha256:" |} ]
          /\ (forall hex, ImageDigest (ImageInfo opts) = "sha256:" +:+ hex ->
                exists c,
                  Package.Checksums (@imagePackage sampleExternals opts) = [c]
                  /\ Value c = hex
                  /\ checksumSplits (ImageDigest (ImageInfo opts)) c))
    /\ (ImageDigest (ImageInfo opts) = "" ->
          Document.Packages doc = layer :: nodes).
Proof. exact (@image_checksum sampleExternals _). Defined.

Lemma sbom_closure_witness :
  let opts := sampleOptions "sha256:abcd" [busybox] in
  exists layer doc,
    @layerPackage sampleExternals opts = Go.Ok layer
    /\ @document sampleExternals opts = Go.Ok doc
    /\ (forall r, In r (Document.Relationships doc) ->
          In (Relationship.Element r) (packageIDs doc)
          /\ In (Relationship.Related r) (packageIDs doc))
    /\ Document.DocumentDescribes doc =
       [ if decide (ImageDigest (ImageInfo opts) = "")
         then Package.ID layer
         else Package.ID (@imagePackage sampleExternals opts) ]
    /\ (forall d, In d (Document.DocumentDescribes doc) ->
          In d (packageIDs doc)).
Proof. exact (@sbom_closure sampleExternals _). Defined.

Lemma scenario_B_witness :
  let opts := sampleOptions "sha256:abcd" [busybox] in
  ImageDigest (ImageInfo opts) <> ""
  /\ Packages opts = [busybox]
  /\ exists layer p doc,
       @layerPackage sampleExternals opts = Go.Ok layer
       /\ @isNode sampleExternals opts layer busybox p
       /\ @document sampleExternals opts = Go.Ok doc
       /\ Document.Packages doc
          = [@imagePackage sampleExternals opts; layer; p]
       /\ Document.Relationships doc =
          [ {| Relationship.Element :=
                 Package.ID (@imagePackage sampleExternals opts);
               Relationship.Type_ := "CONTAINS";
               Relationship.Related := Package.ID layer |};
            {| Relationship.Element := Package.ID layer;
               Relationship.Type_ := "CONTAINS";
               Relationship.Related := Package.ID p |} ].
Proof.
  cbv zeta. split; [discriminate|]. split; [reflexivity|].
  apply (@scenario_B sampleExternals); [discriminate | reflexivity].
Defined.

Lemma scenario_A_witness :
  let opts := sampleOptions "" [] in
  ImageDigest (ImageInfo opts) = ""
  /\ Packages opts = []
  /\ exists layer doc,
       @layerPackage sampleExternals opts = Go.Ok layer
       /\ @document sampleExternals opts = Go.Ok doc
       /\ Document.Packages doc = [layer]
       /\ Document.Relationships doc = [].
Proof.
  cbv zeta. split; [reflexivity|]. split; [reflexivity|].
  apply (@scenario_A sampleExternals); reflexivity.
Defined.

End ImageChecksum.

(** ** The assembly pipeline *)

Section Pipeline.

Import apkfs build pipeline.
Context `{Collaborators}.

(** [buildImage] is the run of its statements, then the closing log. *)
Lemma buildImage_steps (bc : Context) :
  buildImage bc = finish (runSteps steps (bc, [])).
Proof.
  unfold buildImage, finish, steps, runSteps, bind, errorf, lift, onFS,
    osRelease, osReleaseBare, getInstalled, additionalTags, Warnf, Infof,
    wrapWith.
  cbn [run wrap fst snd].
  repeat (case_match; simplify_eq/=; try reflexivity).
Qed.

Lemma runSteps_app (a b : list Step) (f : Frame) :
  runSteps (a ++ b) f =
  match runSteps a f with
  | (None, f') => runSteps b f'
  | (Some e, f') => (Some e, f')
  end.
Proof.
  revert f. induction a as [|s a IH]; intros f; simpl; [reflexivity|].
  destruct (run s f) as [[e|] f']; [reflexivity | apply IH].
Qed.

(** The statement that fails first ends the run with its error, and the
    state is the one it left. *)
Lemma runSteps_first_error (pre post : list Step) (s : Step) (f f1 f2 : Frame)
    (e : Go.error) :
  runSteps pre f = (None, f1) ->
  run s f1 = (Some e, f2) ->
  runSteps (pre ++ s :: post) f = (Some (wrapWith (wrap s) e), f2).
Proof.
  intros Hpre Hs. rewrite runSteps_app, Hpre. simpl. now rewrite Hs.
Qed.

(** Which statements return their error as it is. *)
Lemma unwrapped_steps (s : Step) :
  In s steps ->
  (wrap s = None <->
   In (name s)
      ["installBusyboxLinks"; "installLdconfigLinks"; "installCharDevices"]).
Proof.
  intros Hs. simpl in Hs.
  repeat (destruct Hs as [<-|Hs]; [simpl; split; intros Hw;
    [try discriminate; auto 6
    | repeat (destruct Hw as [Hw|Hw]; try discriminate); auto; contradiction]
    |]).
  contradiction.
Qed.

Lemma setFS_fs (bc : Context) : setFS bc (fs bc) = bc.
Proof. destruct bc; reflexivity. Qed.

(** C4, as it holds: the statement that fails first ends [buildImage];
    no later statement runs, the context is the one the failing statement
    left, and the error returned is the statement's own, wrapped with the
    statement's message except for the three link and device statements
    at the end, whose error is returned as it is.  In particular a failure
    of the account mutation is returned wrapped and the tree is the one
    the account mutation left. *)
Theorem pipeline_first_error (bc : Context) :
  (forall pre post s f1 f2 e,
      steps = pre ++ s :: post ->
      runSteps pre (bc, []) = (None, f1) ->
      run s f1 = (Some e, f2) ->
      buildImage bc = (Go.Err (wrapWith (wrap s) e), f2.1)
      /\ (wrap s = None <->
          In (name s)
             ["installBusyboxLinks"; "installLdconfigLinks";
              "installCharDevices"]))
  /\ (forall bc2 inst e t,
        runSteps (take 2 steps) (bc, []) = (None, (bc2, inst)) ->
        mutateAccounts (fs bc2) (o bc2) (ic bc2) = (Some e, t) ->
        buildImage bc =
        (Go.Err (Go.Errorf "failed to mutate accounts" e), setFS bc2 t)).
Proof.
  split.
  - intros pre post s f1 f2 e Hsplit Hpre Hs. split.
    + rewrite buildImage_steps, Hsplit.
      rewrite (runSteps_first_error pre post s _ f1 f2 e Hpre Hs).
      reflexivity.
    + apply unwrapped_steps. rewrite Hsplit. apply in_or_app. simpl. auto.
  - intros bc2 inst e t Hpre Hacc.
    rewrite buildImage_steps.
    change steps with (take 2 steps ++ drop 2 steps).
    rewrite runSteps_app, Hpre.
    cbn [drop steps runSteps run wrap wrapWith].
    unfold lift, onFS. cbn [fst snd]. rewrite Hacc. reflexivity.
Qed.

(** C5: when the OS-release file exists after the first four statements,
    the OS-release statement logs a warning and leaves the tree as it is,
    [buildImage] goes on with the statements after it, and succeeds when
    they do; an error of the OS-release statement other than the sentinel
    ends [buildImage], wrapped. *)
Theorem os_release_already_present (bc bc4 : Context)
    (inst : list repository.Package.t) :
  runSteps (take 4 steps) (bc, []) = (None, (bc4, inst)) ->
  (is_Some (fs bc4 !! osReleasePath) ->
     let bc5 :=
       log bc4 Warn
         ("did not generate /etc/os-release: "
            +:+ Go.Error ErrOSReleaseAlreadyPresent) in
     fs bc5 = fs bc4
     /\ buildImage bc = finish (runSteps (drop 5 steps) (bc5, inst))
     /\ (forall f9,
           runSteps (drop 5 steps) (bc5, inst) = (None, f9) ->
           buildImage bc =
           (Go.Ok tt,
            log f9.1 Info
              ("finished building filesystem in " +:+ WorkDir (o f9.1)))))
  /\ (forall e t,
        GenerateOSRelease (fs bc4) (o bc4) (ic bc4) = (Some e, t) ->
        Go.Is e ErrOSReleaseAlreadyPresent = false ->
        buildImage bc =
        (Go.Err (Go.Errorf "failed to generate /etc/os-release" e),
         setFS bc4 t)).
Proof.
  intros Hpre. split.
  - intros [entry Hentry] bc5. split; [reflexivity|].
    assert (Hrun : buildImage bc = finish (runSteps (drop 5 steps) (bc5, inst))).
    { rewrite buildImage_steps.
      change steps with (take 4 steps ++ drop 4 steps).
      rewrite runSteps_app, Hpre.
      cbn [drop steps runSteps run wrap wrapWith].
      unfold lift at 1. unfold osReleaseBare, GenerateOSRelease.
      cbn [fst snd]. rewrite Hentry.
      change (Go.Is ErrOSReleaseAlreadyPresent ErrOSReleaseAlreadyPresent)
        with true.
      cbv iota. unfold Warnf. rewrite setFS_fs. reflexivity. }
    split; [exact Hrun|].
    intros f9 Hrest. rewrite Hrun, Hrest. reflexivity.
  - intros e t Hgen Hnot.
    rewrite buildImage_steps.
    change steps with (take 4 steps ++ drop 4 steps).
    rewrite runSteps_app, Hpre.
    cbn [drop steps runSteps run wrap wrapWith].
    unfold lift at 1. unfold osReleaseBare. cbn [fst snd].
    rewrite Hgen, Hnot. reflexivity.
Qed.

End Pipeline.

Section PipelineExamples.

Import apkfs build pipeline.

(** A failure of the linker-cache statement is returned as the statement
    gave it, under no message of [buildImage]. *)
Lemma ldconfig_error_not_wrapped :
  let C := sampleCollaborators false true false in
  let bc := sampleContext "" ∅ in
  let f1 := (runSteps (take 8 (@steps C)) (bc, [])).2 in
  let e := Go.errorString "ldconfig: no such file" in
  runSteps (take 8 (@steps C)) (bc, []) = (None, f1)
  /\ @installLdconfigLinks C (fs f1.1) = (Some e, fs f1.1)
  /\ (@buildImage C bc).1 = Go.Err e
  /\ ~ (exists r, (@buildImage C bc).1 = Go.Err r /\ wraps r e).
Proof.
  cbv zeta. split; [vm_compute; reflexivity|].
  split; [vm_compute; reflexivity|].
  split; [vm_compute; reflexivity|].
  intros (r & Hr & msg & Hmsg). vm_compute in Hr. congruence.
Qed.

Lemma pipeline_first_error_witness :
  (let C := sampleCollaborators false true false in
   let bc := sampleContext "" ∅ in
   exists pre post s f1 f2 e,
     @steps C = pre ++ s :: post
     /\ runSteps pre (bc, []) = (None, f1)
     /\ run s f1 = (Some e, f2)
     /\ name s = "installLdconfigLinks"
     /\ @buildImage C bc = (Go.Err (wrapWith (wrap s) e), f2.1)
     /\ (wrap s = None <->
         In (name s)
            ["installBusyboxLinks"; "installLdconfigLinks";
             "installCharDevices"]))
  /\ (let C := sampleCollaborators true false false in
      let bc := sampleContext "" ∅ in
      exists bc2 inst e t,
        runSteps (take 2 (@steps C)) (bc, []) = (None, (bc2, inst))
        /\ @mutateAccounts C (fs bc2) (o bc2) (ic bc2) = (Some e, t)
        /\ @buildImage C bc =
           (Go.Err (Go.Errorf "failed to mutate accounts" e), setFS bc2 t)
        /\ map fst (map_to_list (fs (@buildImage C bc).2))
           = ["lib/apk/db/installed"]).
Proof.
  split; cbv zeta.
  - set (C := sampleCollaborators false true false).
    set (bc := sampleContext "" ∅).
    exists (take 8 (@steps C)), (drop 9 (@steps C)).
    exists {| name := "installLdconfigLinks"; wrap := None;
              run := lift (onFS (fun bc => @installLdconfigLinks C (fs bc))) |}.
    exists (runSteps (take 8 (@steps C)) (bc, [])).2.
    exists (runSteps (take 8 (@steps C)) (bc, [])).2.
    exists (Go.errorString "ldconfig: no such file").
    assert (H1 : @steps C = take 8 (@steps C)
                   ++ {| name := "installLdconfigLinks"; wrap := None;
                         run := lift (onFS (fun bc =>
                                  @installLdconfigLinks C (fs bc))) |}
                   :: drop 9 (@steps C)) by reflexivity.
    assert (H2 : runSteps (take 8 (@steps C)) (bc, [])
                 = (None, (runSteps (take 8 (@steps C)) (bc, [])).2))
      by (vm_compute; reflexivity).
    assert (H3 : run {| name := "installLdconfigLinks"; wrap := None;
                        run := lift (onFS (fun bc =>
                                 @installLdconfigLinks C (fs bc))) |}
                   (runSteps (take 8 (@steps C)) (bc, [])).2
                 = (Some (Go.errorString "ldconfig: no such file"),
                    (runSteps (take 8 (@steps C)) (bc, [])).2))
      by (vm_compute; reflexivity).
    split; [exact H1|]. split; [exact H2|]. split; [exact H3|].
    split; [reflexivity|].
    exact (proj1 (@pipeline_first_error C bc) _ _ _ _ _ _ H1 H2 H3).
  - set (C := sampleCollaborators true false false).
    set (bc := sampleContext "" ∅).
    exists (runSteps (take 2 (@steps C)) (bc, [])).2.1, [].
    exists (Go.errorString "unable to open /etc/passwd").
    exists (fs (runSteps (take 2 (@steps C)) (bc, [])).2.1).
    assert (H1 : runSteps (take 2 (@steps C)) (bc, [])
                 = (None, ((runSteps (take 2 (@steps C)) (bc, [])).2.1, [])))
      by (vm_compute; reflexivity).
    match goal with
    | |- _ /\ ?A /\ _ => assert (H2 : A) by (vm_compute; reflexivity)
    end.
    split; [exact H1|]. split; [exact H2|].
    pose proof (proj2 (@pipeline_first_error C bc) _ _ _ _ H1 H2) as H3.
    split; [exact H3|]. rewrite H3. vm_compute. reflexivity.
Defined.

Lemma os_release_already_present_witness :
  (let C := sampleCollaborators false false false in
   let bc := sampleContext "" (<[osReleasePath := entry "ID=custom"]> ∅) in
   exists (bc4 : Context) (f9 : Frame),
     runSteps (take 4 (@steps C)) (bc, []) = (None, (bc4, []))
     /\ fs bc4 !! osReleasePath = Some (entry "ID=custom")
     /\ @buildImage C bc =
        (Go.Ok tt,
         log f9.1 Info ("finished building filesystem in " +:+ WorkDir (o f9.1)))
     /\ fs f9.1 !! osReleasePath = Some (entry "ID=custom")
     /\ logged (@buildImage C bc).2 =
        [ (Warn, "did not generate /etc/os-release: os-release already present");
          (Info, "finished building filesystem in /work") ])
  /\ (let C := sampleCollaborators false false true in
      let bc := sampleContext "" ∅ in
      exists bc4 e t,
        runSteps (take 4 (@steps C)) (bc, []) = (None, (bc4, []))
        /\ @GenerateOSRelease C (fs bc4) (o bc4) (ic bc4) = (Some e, t)
        /\ Go.Is e ErrOSReleaseAlreadyPresent = false
        /\ @buildImage C bc =
           (Go.Err (Go.Errorf "failed to generate /etc/os-release" e),
            setFS bc4 t)).
Proof.
  split; cbv zeta.
  - set (C := sampleCollaborators false false false).
    set (bc := sampleContext "" (<[osReleasePath := entry "ID=custom"]> ∅)).
    set (bc4 := (runSteps (take 4 (@steps C)) (bc, [])).2.1).
    set (bc5 := log bc4 Warn
                  ("did not generate /etc/os-release: "
                     +:+ Go.Error ErrOSReleaseAlreadyPresent)).
    set (f9 := (runSteps (drop 5 (@steps C)) (bc5, [])).2).
    exists bc4, f9.
    assert (H1 : runSteps (take 4 (@steps C)) (bc, []) = (None, (bc4, [])))
      by (vm_compute; reflexivity).
    assert (H2 : fs bc4 !! osReleasePath = Some (entry "ID=custom"))
      by (vm_compute; reflexivity).
    assert (H3 : runSteps (drop 5 (@steps C)) (bc5, []) = (None, f9))
      by (vm_compute; reflexivity).
    pose proof (proj1 (@os_release_already_present C bc bc4 [] H1)
                  (ex_intro _ _ H2)) as (_ & _ & Hok).
    specialize (Hok f9 H3).
    split; [exact H1|]. split; [exact H2|]. split; [exact Hok|].
    split; [vm_compute; reflexivity|]. rewrite Hok. vm_compute. reflexivity.
  - set (C := sampleCollaborators false false true).
    set (bc := sampleContext "" ∅).
    set (bc4 := (runSteps (take 4 (@steps C)) (bc, [])).2.1).
    exists bc4, (Go.errorString "read-only file system"), (fs bc4).
    assert (H1 : runSteps (take 4 (@steps C)) (bc, []) = (None, (bc4, [])))
      by (vm_compute; reflexivity).
    match goal with
    | |- _ /\ ?A /\ ?B /\ _ =>
      assert (H2 : A) by (vm_compute; reflexivity);
      assert (H3 : B) by (vm_compute; reflexivity)
    end.
    split; [exact H1|]. split; [exact H2|]. split; [exact H3|].
    exact (proj2 (@os_release_already_present C bc bc4 [] H1) _ _ H2 H3).
Defined.

End PipelineExamples.

(** ** The metadata frame *)

Section Frame.

Import apkfs build pipeline.
Context `{Collaborators}.

Lemma keeps_refl (c : Context) : keeps c c.
Proof.
  unfold keeps, sameMetadata, appendsTags. repeat split.
  exists []. now rewrite app_nil_r.
Qed.

Lemma keeps_trans (c1 c2 c3 : Context) :
  keeps c1 c2 -> keeps c2 c3 -> keeps c1 c3.
Proof.
  unfold keeps, sameMetadata, appendsTags.
  intros ((?&?&?&?)&?&(x&Hx)&?) ((?&?&?&?)&?&(y&Hy)&?).
  repeat split; try congruence.
  exists (x ++ y). rewrite Hy, Hx. now rewrite app_assoc.
Qed.

Lemma keeps_setFS (c : Context) (t : FullFS) : keeps c (setFS c t).
Proof. apply (keeps_refl (setFS c t)). Qed.

Lemma keeps_log (c : Context) (l : Level) (msg : string) :
  keeps c (log c l msg).
Proof. apply (keeps_refl (log c l msg)). Qed.

(** Of the statements only [additionalTags] writes to the options, and
    it appends to the tag list. *)
Lemma step_keeps (s : Step) :
  In s steps ->
  forall f e f', run s f = (e, f') -> keeps f.1 f'.1.
Proof.
  intros Hs. simpl in Hs.
  repeat (destruct Hs as [<-|Hs];
    [intros [bc inst] e f'; cbn [run];
     unfold lift, onFS, additionalTags, osReleaseBare, Warnf; cbn [fst snd];
     intros Hrun; repeat case_match; simplify_eq; cbn [fst snd];
     try apply keeps_refl; try apply keeps_setFS;
     try (eapply keeps_trans; [apply keeps_setFS | apply keeps_log])
    |]); try contradiction.
  unfold keeps, sameMetadata, appendsTags. simpl. repeat split. eauto.
Qed.

Lemma runSteps_keeps (ss : list Step) :
  (forall s, In s ss -> In s steps) ->
  forall f e f', runSteps ss f = (e, f') -> keeps f.1 f'.1.
Proof.
  induction ss as [|s ss IH]; intros Hin f e f' Hrun; simpl in Hrun.
  - injection Hrun as <- <-. apply keeps_refl.
  - destruct (run s f) as [[e1|] f1] eqn:Hs.
    + injection Hrun as <- <-.
      eapply step_keeps; [apply Hin; simpl; auto | exact Hs].
    + eapply keeps_trans.
      * eapply step_keeps; [apply Hin; simpl; auto | exact Hs].
      * eapply IH; [|exact Hrun]. intros s' Hs'. apply Hin. simpl. auto.
Qed.

Lemma buildImage_keeps (bc : Context) : keeps bc (buildImage bc).2.
Proof.
  rewrite buildImage_steps.
  destruct (runSteps steps (bc, [])) as [[e|] f] eqn:Hrun; simpl.
  - apply (runSteps_keeps steps (fun _ Hs => Hs) _ _ _ Hrun).
  - eapply keeps_trans; [|apply keeps_log].
    apply (runSteps_keeps steps (fun _ Hs => Hs) _ _ _ Hrun).
Qed.

(** [BuildTarball] writes the name of the file it created to the tarball
    path, which changes it when it was empty, and nothing else. *)
Lemma BuildTarball_frame (bc : Context) (h : os.Host) :
  let bc' := (BuildTarball bc h).2.1 in
  sameMetadata (o bc) (o bc')
  /\ Tags (o bc') = Tags (o bc)
  /\ ic bc' = ic bc
  /\ fs bc' = fs bc
  /\ (TarballPath (o bc) <> "" -> TarballPath (o bc') = TarballPath (o bc))
  /\ (TarballPath (o bc') = TarballPath (o bc)
      \/ TarballPath (o bc') = defaultTarballPath (o bc)).
Proof.
  unfold BuildTarball, os.Create, sameMetadata.
  destruct (decide (TarballPath (o bc) = "")) as [He|Hne];
    repeat case_match; simplify_eq; cbn; repeat split; auto;
    try (intros; congruence).
Qed.

(** C9, as it holds: after [buildImage] and [BuildTarball] every
    metadata field other than the tag list and the tarball path has its
    initial value; the tag list has its initial entries, possibly
    followed by appended ones, and the tarball path is changed only by
    [BuildTarball], to the name of the file it created, which is the
    initial path when that was not empty.  ([Generate] takes its own
    options and returns no options at all.) *)
Theorem metadata_frame (bc : Context) (h : os.Host) :
  let bc1 := (buildImage bc).2 in
  let bc2 := (BuildTarball bc1 h).2.1 in
  sameMetadata (o bc) (o bc2)
  /\ appendsTags (o bc) (o bc2)
  /\ ic bc2 = ic bc
  /\ TarballPath (o bc1) = TarballPath (o bc)
  /\ (TarballPath (o bc) <> "" -> TarballPath (o bc2) = TarballPath (o bc))
  /\ (TarballPath (o bc2) = TarballPath (o bc)
      \/ TarballPath (o bc2) = defaultTarballPath (o bc1)).
Proof.
  intros bc1 bc2.
  destruct (buildImage_keeps bc) as ((Hw&He&Hs&Ha)&Hp&(extra&Ht)&Hic).
  destruct (BuildTarball_frame bc1 h)
    as ((Hw'&He'&Hs'&Ha')&Ht'&Hic'&_&Hp'&Hor).
  fold bc1 in Hw, He, Hs, Ha, Hp, Ht, Hic.
  fold bc2 in Hw', He', Hs', Ha', Ht', Hic', Hp', Hor.
  unfold sameMetadata, appendsTags.
  split; [repeat split; congruence|].
  split; [exists extra; congruence|].
  split; [congruence|]. split; [congruence|].
  split; [intros Hne; rewrite Hp'; congruence|].
  destruct Hor as [Hor|Hor]; [left|right]; congruence.
Qed.

End Frame.

Section FrameExamples.

Import apkfs build pipeline.

(** [BuildTarball] on an empty tarball path leaves the default path in
    the options. *)
Lemma tarball_path_mutated :
  let C := sampleCollaborators false false false in
  let bc := sampleContext "" ∅ in
  let bc2 := (@BuildTarball C (@buildImage C bc).2 (sampleHost 0)).2.1 in
  TarballPath (o bc) = ""
  /\ TarballPath (o bc2) = "/tmp/apko/amd64.tar.gz"
  /\ TarballPath (o bc2) <> TarballPath (o bc).
Proof.
  cbv zeta. split; [reflexivity|]. split; [vm_compute; reflexivity|].
  vm_compute. discriminate.
Qed.

Lemma metadata_frame_witness :
  let C := sampleCollaborators false false false in
  let bc := sampleContext "/out/layer.tar.gz" ∅ in
  let bc1 := (@buildImage C bc).2 in
  let bc2 := (@BuildTarball C bc1 (sampleHost 0)).2.1 in
  TarballPath (o bc) <> ""
  /\ TarballPath (o bc2) = TarballPath (o bc)
  /\ sameMetadata (o bc) (o bc2)
  /\ appendsTags (o bc) (o bc2).
Proof.
  cbv zeta.
  pose proof (@metadata_frame (sampleCollaborators false false false)
                (sampleContext "/out/layer.tar.gz" ∅) (sampleHost 0))
    as (Hs & Ht & _ & _ & Hp & _).
  split; [discriminate|].
  split; [apply Hp; discriminate|]. split; [exact Hs | exact Ht].
Defined.

End FrameExamples.

(** ** The tarball encoder *)

Section Encoder.

Import apkfs build pipeline.

(** A successful write to a file appends to what the file holds. *)
Lemma File_Write_ok (f f' : io.File) (p d : list byte) (h h' : os.Host) :
  io.Write f p h = (None, (f', h')) ->
  os.files h !! io.Name f = Some d ->
  f' = f /\ os.files h' !! io.Name f = Some (d ++ p).
Proof.
  unfold io.Write, io.File_Writer, os.Write. intros Hw Hd.
  destruct (os.writeErr h (io.Name f)); simplify_eq/=.
  split; [reflexivity|]. rewrite lookup_insert_eq, Hd. reflexivity.
Qed.

Lemma bufio_direct_ok (b b' : bufio.Writer io.File) (p c : list byte)
    (h h' : os.Host) :
  bufio.direct b p h = (None, (b', h')) ->
  bufio.buf b = [] ->
  holds b h c ->
  holds b' h' (c ++ p) /\ bufio.wr b' = bufio.wr b.
Proof.
  unfold bufio.direct. intros Hd Hbuf (Herr & d & Hfile & ->).
  destruct (io.Write (bufio.wr b) p h) as [e [w h1]] eqn:Hw.
  simplify_eq/=.
  destruct (File_Write_ok _ _ _ _ _ _ Hw Hfile) as [-> Hfile'].
  split; [|reflexivity]. split; [reflexivity|]. simpl.
  exists (d ++ p). rewrite Hbuf, !app_nil_r. auto.
Qed.

Lemma bufio_Flush_ok (b b' : bufio.Writer io.File) (c : list byte)
    (h h' : os.Host) :
  bufio.Flush b h = (None, (b', h')) ->
  holds b h c ->
  holds b' h' c /\ bufio.buf b' = [] /\ bufio.wr b' = bufio.wr b.
Proof.
  unfold bufio.Flush. intros Hf (Herr & d & Hfile & ->). rewrite Herr in Hf.
  destruct (bufio.buf b) as [|x l] eqn:Hbuf.
  - simplify_eq/=. repeat split; auto.
    exists d. rewrite Hbuf. auto.
  - destruct (io.Write (bufio.wr b) (x :: l) h) as [[e|] [w h1]] eqn:Hw;
      simplify_eq/=.
    destruct (File_Write_ok _ _ _ _ _ _ Hw Hfile) as [-> Hfile'].
    repeat split; auto. simpl. exists (d ++ x :: l).
    rewrite app_nil_r. auto.
Qed.

Lemma holds_store (b : bufio.Writer io.File) (p c : list byte) (h : os.Host) :
  holds b h c -> holds (bufio.store b p) h (c ++ p).
Proof.
  intros (Herr & d & Hfile & ->). split; [exact Herr|].
  exists d. simpl. rewrite app_assoc. auto.
Qed.

(** A successful buffered write adds the slice to what the writer stands
    for, whichever way the slice took. *)
Lemma bufio_Write_ok (b b' : bufio.Writer io.File) (p c : list byte)
    (h h' : os.Host) :
  bufio.Write b p h = (None, (b', h')) ->
  holds b h c ->
  holds b' h' (c ++ p) /\ bufio.wr b' = bufio.wr b.
Proof.
  unfold bufio.Write. intros Hw Hb.
  destruct Hb as (Herr & Hrest). rewrite Herr in Hw.
  assert (Hb : holds b h c) by (split; assumption).
  destruct (Z.of_nat (length p) <=? bufio.Available b).
  - simplify_eq/=. split; [now apply holds_store | reflexivity].
  - destruct (bufio.buf b) as [|x l] eqn:Hbuf.
    + now apply (bufio_direct_ok b b' p c h h').
    + set (n := Z.to_nat (bufio.Available b)) in *.
      destruct (bufio.Flush (bufio.store b (take n p)) h)
        as [[e|] [b1 h1]] eqn:Hflush; [discriminate|].
      destruct (bufio_Flush_ok _ _ (c ++ take n p) _ _ Hflush
                  (holds_store b (take n p) c h Hb))
        as (Hb1 & Hbuf1 & Hwr1).
      simpl in Hwr1.
      assert (Hc : c ++ p = (c ++ take n p) ++ drop n p)
        by (now rewrite <- app_assoc, take_drop).
      rewrite Hc.
      destruct (Z.of_nat (length (drop n p)) <=? bufio.Available b1).
      * simplify_eq/=. split; [now apply holds_store | exact Hwr1].
      * destruct (bufio_direct_ok b1 b' (drop n p) _ h1 h' Hw Hbuf1 Hb1)
          as [Hb' Hwr']. split; [exact Hb' | congruence].
Qed.

Context `{Collaborators}.

(** The fan-out in front of the compressor: the first hash and the
    compressor both take every slice of the tar stream; neither fails and
    the host is not touched. *)
Lemma writeAll_fanout {W : Type} `{io.Writer W} (chunks : list (list byte)) :
  forall (d : hash.Hash) (z : gzip.Writer W) (h : os.Host),
    writeAll chunks (io.Build_MultiWriter d z) h =
    (None,
     (io.Build_MultiWriter
        {| hash.absorbed := hash.absorbed d ++ concat chunks |}
        (gzip.Build_Writer (gzip.input z ++ concat chunks) (gzip.under z)),
      h)).
Proof.
  induction chunks as [|p rest IH]; intros d z h; simpl.
  - rewrite !app_nil_r. destruct d, z. reflexivity.
  - rewrite IH. simpl. now rewrite <- !app_assoc.
Qed.

(** What a successful [BuildTarball] returns and leaves on the host. *)
Lemma BuildTarball_spec (bc bc' : Context) (h h' : os.Host) (r : Tarball) :
  BuildTarball bc h = (Go.Ok r, (bc', h')) ->
  path r = target bc
  /\ diffid r = {| hash.absorbed := tarBytes bc |}
  /\ digest r = {| hash.absorbed := archive bc |}
  /\ os.files h' !! path r = Some (archive bc)
  /\ size r = Z.of_nat (length (archive bc)).
Proof.
  unfold BuildTarball, archive, tarBytes. fold (target bc).
  unfold os.Create.
  destruct (os.createErr h (target bc)); [discriminate|].
  cbn [tarball.NewContext o setO setTarballPath SourceDateEpoch fs].
  unfold WriteTar.
  destruct (tarStream _ (fs bc)) as [chunks failure].
  rewrite writeAll_fanout. cbn [fst snd io.fst_w io.snd_w].
  destruct failure; [discriminate|].
  unfold gzip.Close. cbn [gzip.input gzip.under hash.absorbed hash.New
    gzip.NewWriter app].
  unfold io.Write at 1. unfold io.MultiWriter_Writer.
  unfold io.Write at 1. unfold hash.Hash_Writer.
  cbn [io.fst_w io.snd_w hash.absorbed app].
  set (data := compress (concat chunks)).
  set (h0 := os.setFile h (target bc) []).
  set (b0 := bufio.NewWriterSize {| io.Name := target bc |} (Z.shiftl 1 22)).
  assert (Hb0 : holds b0 h0 []).
  { split; [reflexivity|]. exists []. split; [|reflexivity].
    simpl. apply lookup_insert_eq. }
  destruct (io.Write b0 data h0) as [[e|] [b1 h1]] eqn:Hw;
    [discriminate|].
  destruct (bufio_Write_ok b0 b1 data [] h0 h1 Hw Hb0) as [Hb1 Hwr1].
  cbn [gzip.under io.fst_w io.snd_w].
  destruct (bufio.Flush b1 h1) as [[e|] [b2 h2]] eqn:Hfl; [discriminate|].
  destruct (bufio_Flush_ok b1 b2 _ h1 h2 Hfl Hb1)
    as ((_ & d & Hfile & Hd) & Hbuf2 & Hwr2).
  rewrite Hbuf2, app_nil_r in Hd. subst d.
  rewrite Hwr2, Hwr1 in Hfile. simpl in Hfile.
  unfold os.StatSize.
  destruct (os.statErr h2 (target bc)); [discriminate|].
  intros Hr. injection Hr as <- <- <-. cbn [path diffid digest size].
  rewrite Hfile. auto.
Qed.

(** C1: two runs of [BuildTarball] on trees of identical content with
    the same source timestamp, on any two hosts (whatever their clocks,
    their files and the paths of the output), leave byte-identical
    archives and return identical digest and diffID, and so identical
    sums, and the same size. *)
Theorem BuildTarball_deterministic (bc1 bc2 bc1' bc2' : Context)
    (h1 h2 h1' h2' : os.Host) (r1 r2 : Tarball) :
  fs bc1 = fs bc2 ->
  SourceDateEpoch (o bc1) = SourceDateEpoch (o bc2) ->
  BuildTarball bc1 h1 = (Go.Ok r1, (bc1', h1')) ->
  BuildTarball bc2 h2 = (Go.Ok r2, (bc2', h2')) ->
  (exists data, os.files h1' !! path r1 = Some data
                /\ os.files h2' !! path r2 = Some data)
  /\ digest r1 = digest r2
  /\ diffid r1 = diffid r2
  /\ sha256 (hash.absorbed (digest r1)) = sha256 (hash.absorbed (digest r2))
  /\ sha256 (hash.absorbed (diffid r1)) = sha256 (hash.absorbed (diffid r2))
  /\ size r1 = size r2.
Proof.
  intros Hfs Hepoch Hrun1 Hrun2.
  destruct (BuildTarball_spec _ _ _ _ _ Hrun1) as (_ & Hd1 & Hg1 & Hf1 & Hs1).
  destruct (BuildTarball_spec _ _ _ _ _ Hrun2) as (_ & Hd2 & Hg2 & Hf2 & Hs2).
  assert (Ht : tarBytes bc1 = tarBytes bc2)
    by (unfold tarBytes; now rewrite Hfs, Hepoch).
  assert (Ha : archive bc1 = archive bc2)
    by (unfold archive; now rewrite Ht).
  rewrite Hd1, Hd2, Hg1, Hg2, Hf1, Hf2, Hs1, Hs2, Ht, Ha.
  repeat split; eauto.
Qed.

(** On a host that refuses nothing about the file, buffered writes and
    flushes go through. *)
Lemma bufio_Write_succeeds (b : bufio.Writer io.File) (p : list byte)
    (h : os.Host) :
  bufio.err b = None ->
  os.writeErr h (io.Name (bufio.wr b)) = None ->
  exists b' h',
    bufio.Write b p h = (None, (b', h'))
    /\ bufio.err b' = None
    /\ bufio.wr b' = bufio.wr b
    /\ os.writeErr h' = os.writeErr h
    /\ os.statErr h' = os.statErr h.
Proof.
  destruct b as [err buf size [name]]. simpl. intros -> Hw.
  unfold bufio.Write, bufio.direct, bufio.Flush, bufio.store, io.Write,
    io.File_Writer, os.Write.
  cbn [bufio.err bufio.buf bufio.wr bufio.size io.Name].
  rewrite !Hw.
  repeat (case_match; simplify_eq/=; eauto 10).
Qed.

Lemma bufio_Flush_succeeds (b : bufio.Writer io.File) (h : os.Host) :
  bufio.err b = None ->
  os.writeErr h (io.Name (bufio.wr b)) = None ->
  exists b' h',
    bufio.Flush b h = (None, (b', h'))
    /\ os.statErr h' = os.statErr h.
Proof.
  destruct b as [err buf size [name]]. simpl. intros -> Hw.
  unfold bufio.Flush, io.Write, io.File_Writer, os.Write.
  cbn [bufio.err bufio.buf bufio.wr bufio.size io.Name].
  rewrite Hw. destruct buf; eauto.
Qed.

(** X24: [BuildTarball] returns an archive whenever the host lets the output
    file be created, written and inspected and the traversal of the tree
    does not fail. *)
Lemma BuildTarball_succeeds (bc : Context) (h : os.Host) :
  os.createErr h (target bc) = None ->
  os.writeErr h (target bc) = None ->
  os.statErr h (target bc) = None ->
  (tarStream {| tarball.SourceDateEpoch := SourceDateEpoch (o bc) |}
     (fs bc)).2 = None ->
  exists r bc' h', BuildTarball bc h = (Go.Ok r, (bc', h')).
Proof.
  intros Hc Hw Hs Ht.
  unfold BuildTarball. fold (target bc). unfold os.Create. rewrite Hc.
  cbn [tarball.NewContext o setO setTarballPath SourceDateEpoch fs].
  unfold WriteTar.
  destruct (tarStream _ (fs bc)) as [chunks failure]. simpl in Ht. subst.
  rewrite writeAll_fanout. cbn [fst snd io.fst_w io.snd_w].
  unfold gzip.Close. cbn [gzip.input gzip.under hash.absorbed hash.New
    gzip.NewWriter app].
  unfold io.Write at 1. unfold io.MultiWriter_Writer.
  unfold io.Write at 1. unfold hash.Hash_Writer.
  cbn [io.fst_w io.snd_w hash.absorbed app].
  set (data := compress (concat chunks)).
  set (h0 := os.setFile h (target bc) []).
  set (b0 := bufio.NewWriterSize {| io.Name := target bc |} (Z.shiftl 1 22)).
  destruct (bufio_Write_succeeds b0 data h0 eq_refl Hw)
    as (b1 & h1 & Hw1 & Herr1 & Hwr1 & Hwe1 & Hse1).
  change (io.Write b0 data h0) with (bufio.Write b0 data h0).
  rewrite Hw1. cbn [gzip.under io.fst_w io.snd_w].
  assert (Hw1' : os.writeErr h1 (io.Name (bufio.wr b1)) = None)
    by (rewrite Hwr1, Hwe1; exact Hw).
  destruct (bufio_Flush_succeeds b1 h1 Herr1 Hw1') as (b2 & h2 & Hfl & Hse2).
  rewrite Hfl. unfold os.StatSize. rewrite Hse2, Hse1. simpl.
  rewrite Hs. eauto.
Qed.

End Encoder.

Section EncoderExamples.

Import apkfs build pipeline.

(** Two builds of the same tree, one second apart on the wall clock and
    writing to different paths, under the same source timestamp. *)
Lemma BuildTarball_deterministic_witness :
  let C := sampleCollaborators false false false in
  let tree := fs (@buildImage C (sampleContext "" ∅)).2 in
  let bc1 := sampleContext "" tree in
  let bc2 := sampleContext "/out/layer.tar.gz" tree in
  let h1 := sampleHost 1700000100 in
  let h2 := sampleHost 1700000101 in
  exists r1 r2 bc1' bc2' h1' h2',
    @BuildTarball C bc1 h1 = (Go.Ok r1, (bc1', h1'))
    /\ @BuildTarball C bc2 h2 = (Go.Ok r2, (bc2', h2'))
    /\ os.now h1 <> os.now h2
    /\ (exists data, os.files h1' !! path r1 = Some data
                     /\ os.files h2' !! path r2 = Some data)
    /\ digest r1 = digest r2
    /\ diffid r1 = diffid r2
    /\ size r1 = size r2.
Proof.
  cbv zeta.
  set (C := sampleCollaborators false false false).
  set (tree := fs (@buildImage C (sampleContext "" ∅)).2).
  destruct (@BuildTarball C (sampleContext "" tree) (sampleHost 1700000100))
    as [[r1|e1] [bc1' h1']] eqn:H1; [|vm_compute in H1; discriminate].
  destruct (@BuildTarball C (sampleContext "/out/layer.tar.gz" tree)
              (sampleHost 1700000101))
    as [[r2|e2] [bc2' h2']] eqn:H2; [|vm_compute in H2; discriminate].
  exists r1, r2, bc1', bc2', h1', h2'.
  split; [reflexivity|]. split; [reflexivity|].
  split; [vm_compute; discriminate|].
  destruct (@BuildTarball_deterministic C
              (sampleContext "" tree) (sampleContext "/out/layer.tar.gz" tree)
              bc1' bc2' (sampleHost 1700000100) (sampleHost 1700000101)
              h1' h2' r1 r2 eq_refl eq_refl H1 H2)
    as (Hf & Hg & Hd & _ & _ & Hs).
  auto.
Defined.

End EncoderExamples.

(** ** More on the identifier transform *)

Section IdentifierBytes.

Import spdx ident.

Lemma length_append (a b : string) :
  String.length (a +:+ b) = (String.length a + String.length b)%nat.
Proof.
  induction a as [|x a IH]; autorewrite with gostring; simpl;
    [reflexivity | now rewrite IH].
Qed.

Lemma escapeAll_app (a b : string) :
  escapeAll (a +:+ b) = escapeAll a +:+ escapeAll b.
Proof.
  induction a as [|x a IH]; autorewrite with gostring; simpl;
    [reflexivity|].
  rewrite IH. autorewrite with gostring. now rewrite !append_assoc.
Qed.

(** The function literal escapes every byte of the match it is given,
    with the value of the byte. *)
Lemma escape_escapeAll (run : string) : escape run = escapeAll run.
Proof.
  unfold escape. induction run as [|b run IH]; simpl; [reflexivity|].
  rewrite escapeLoop_app, IH, decode_string_of_byte.
  now autorewrite with gostring.
Qed.

Lemma flush_escapeAll (run : string) : flush escape run = escapeAll run.
Proof. destruct run; [reflexivity | apply escape_escapeAll]. Qed.

Lemma replaceRuns_bytewise (s run : string) :
  replaceRuns escape run s = escapeAll run +:+ bytewise s.
Proof.
  revert run. induction s as [|c s IH]; intros run; simpl.
  - now rewrite flush_escapeAll, append_empty_r.
  - unfold escapeByte. destruct (idChar c).
    + rewrite flush_escapeAll, IH. now autorewrite with gostring.
    + rewrite IH, escapeAll_app. simpl.
      autorewrite with gostring. rewrite append_empty_r.
      now rewrite !append_assoc.
Qed.

(** X1: Replacing run by run is replacing byte by byte: a byte outside
    [a-zA-Z0-9.-] becomes "C" and the decimal value of that byte, between
    0 and 255, whatever character it was part of; the other bytes stay. *)
Theorem stringToIdentifier_bytewise (s : string) :
  stringToIdentifier s = bytewise s.
Proof.
  unfold stringToIdentifier, ReplaceAllStringFunc.
  now rewrite replaceRuns_bytewise.
Qed.

Lemma bytewise_app (a b : string) :
  bytewise (a +:+ b) = bytewise a +:+ bytewise b.
Proof.
  induction a as [|x a IH]; autorewrite with gostring; simpl;
    [reflexivity | now rewrite IH, append_assoc].
Qed.

(** X2: The transform distributes over concatenation: the identifier of a
    string put together from parts is put together from the identifiers
    of the parts. *)
Theorem stringToIdentifier_app (a b : string) :
  stringToIdentifier (a +:+ b)
  = stringToIdentifier a +:+ stringToIdentifier b.
Proof.
  unfold stringToIdentifier, ReplaceAllStringFunc.
  rewrite !replaceRuns_bytewise. simpl. autorewrite with gostring.
  apply bytewise_app.
Qed.

Lemma bytewise_fixed_allowed (s : string) :
  bytewise s = s -> allIdChars s = true.
Proof.
  intros Hs. rewrite <- Hs.
  assert (H := replaceRuns_idChars s EmptyString).
  rewrite replaceRuns_bytewise in H. exact H.
Qed.

(** X3: The strings the transform leaves alone are exactly those made of
    allowed characters only. *)
Theorem stringToIdentifier_fixed_iff (s : string) :
  stringToIdentifier s = s <-> allIdChars s = true.
Proof.
  split.
  - unfold stringToIdentifier, ReplaceAllStringFunc.
    rewrite replaceRuns_bytewise. simpl. autorewrite with gostring.
    apply bytewise_fixed_allowed.
  - apply replaceRuns_fixed.
Qed.

End IdentifierBytes.

Section IdentifierSize.

Import spdx ident.

Lemma escapeByte_length (c : ascii) :
  (1 <= String.length (escapeByte c) <= 4)%nat.
Proof.
  destruct c as [[] [] [] [] [] [] [] []]; vm_compute; lia.
Qed.

(** X4: The identifier is at least as long as the input and at most four
    times as long: a byte becomes itself or "C" and one to three
    digits. *)
Theorem stringToIdentifier_length (s : string) :
  (String.length s <= String.length (stringToIdentifier s)
   <= 4 * String.length s)%nat.
Proof.
  unfold stringToIdentifier, ReplaceAllStringFunc.
  rewrite replaceRuns_bytewise. simpl. autorewrite with gostring.
  induction s as [|c s IH]; simpl; [lia|].
  rewrite length_append. pose proof (escapeByte_length c). lia.
Qed.

(** X5: The transform is not injective: a string with a byte outside the
    allowed set and its own identifier are two different inputs with the
    same identifier. *)
Theorem stringToIdentifier_collides (s : string) :
  allIdChars s = false ->
  s <> stringToIdentifier s
  /\ stringToIdentifier (stringToIdentifier s) = stringToIdentifier s.
Proof.
  intros Hs.
  assert (Hout : allIdChars (stringToIdentifier s) = true)
    by apply replaceRuns_idChars.
  split.
  - intros Heq. rewrite <- Heq, Hs in Hout. discriminate.
  - now apply replaceRuns_fixed.
Qed.

Lemma stringToIdentifier_collides_witness :
  allIdChars "a b" = false
  /\ "a b" <> stringToIdentifier "a b"
  /\ stringToIdentifier (stringToIdentifier "a b") = stringToIdentifier "a b".
Proof.
  split; [reflexivity|]. apply stringToIdentifier_collides. reflexivity.
Defined.

End IdentifierSize.

(** ** More on the SBOM graph *)

Section Nodes.

Import spdx sbom_options sbom nodes.
Context `{Externals}.


Lemma layerPackage_ID (opts : Options) (layer : Package.t) :
  layerPackage opts = Go.Ok layer ->
  allIdChars (Package.ID layer) = true.
Proof.
  unfold layerPackage. intros Hl. injection Hl as <-. simpl.
  rewrite allIdChars_app. simpl. apply replaceRuns_idChars.
Qed.

Lemma isNode_ID (opts : Options) (layer : Package.t)
    (pkg : repository.Package.t) (p : Package.t) :
  isNode opts layer pkg p -> allIdChars (Package.ID p) = true.
Proof.
  intros (p0 & _ & ->). simpl. apply replaceRuns_idChars.
Qed.

(** X7: Every identifier of the document is made of the characters SPDX
    allows in an identifier: those of the nodes, both ends of every
    relationship, and the described one. *)
Theorem document_identifiers_valid (opts : Options) :
  exists doc,
    document opts = Go.Ok doc
    /\ Forall (fun p => allIdChars (Package.ID p) = true)
         (Document.Packages doc)
    /\ Forall (fun r => allIdChars (Relationship.Element r) = true
                        /\ allIdChars (Relationship.Related r) = true)
         (Document.Relationships doc)
    /\ Forall (fun d => allIdChars d = true) (Document.DocumentDescribes doc).
Proof.
  destruct (document_shape opts)
    as (layer & nodes & doc & Hlayer & Hdoc & Hnodes & Hpk & Hrel & Hdesc).
  exists doc. split; [exact Hdoc|].
  pose proof (layerPackage_ID opts layer Hlayer) as Hl.
  assert (Himg : allIdChars (Package.ID (imagePackage opts)) = true)
    by (simpl; apply replaceRuns_idChars).
  assert (Hn : Forall (fun p => allIdChars (Package.ID p) = true) nodes).
  { clear Hpk Hrel. induction Hnodes as [|pkg p pkgs ps Hp _ IH];
      constructor; [eapply isNode_ID; exact Hp | exact IH]. }
  rewrite Hpk, Hrel, Hdesc. unfold imageNodes, imageEdges, topID.
  destruct (decide (ImageDigest (ImageInfo opts) = "")); simpl.
  - split; [constructor; assumption|]. split; [|repeat constructor; assumption].
    apply List.Forall_forall. intros r Hr. apply in_map_iff in Hr as (p & <- & Hp).
    simpl. split; [exact Hl|]. rewrite List.Forall_forall in Hn. auto.
  - split; [repeat (constructor; try assumption)|].
    split; [|repeat constructor; assumption].
    constructor; [simpl; auto|].
    apply List.Forall_forall. intros r Hr. apply in_map_iff in Hr as (p & <- & Hp).
    simpl. split; [exact Hl|]. rewrite List.Forall_forall in Hn. auto.
Qed.

(** X8: The size and form of the graph: one node per resolved package, the
    layer node, and the image node when there is one; one relationship
    per resolved package, from the layer and in the order of the
    packages, after the one from the image when there is one; every
    relationship is of type CONTAINS. *)
Theorem graph_structure (opts : Options) :
  exists layer doc,
    layerPackage opts = Go.Ok layer
    /\ document opts = Go.Ok doc
    /\ length (Document.Packages doc)
       = (imageCount opts + 1 + length (Packages opts))%nat
    /\ length (Document.Relationships doc)
       = (imageCount opts + length (Packages opts))%nat
    /\ Forall (fun r => Relationship.Type_ r = "CONTAINS")
         (Document.Relationships doc)
    /\ Forall (fun r => Relationship.Element r = Package.ID layer)
         (drop (imageCount opts) (Document.Relationships doc))
    /\ map Relationship.Related
         (drop (imageCount opts) (Document.Relationships doc))
       = map Package.ID (drop (imageCount opts + 1) (Document.Packages doc)).
Proof.
  destruct (document_shape opts)
    as (layer & nodes & doc & Hlayer & Hdoc & Hnodes & Hpk & Hrel & _).
  exists layer, doc. split; [exact Hlayer|]. split; [exact Hdoc|].
  pose proof (Forall2_length _ _ _ Hnodes) as Hlen.
  rewrite Hpk, Hrel. unfold imageNodes, imageEdges, imageCount.
  destruct (decide (ImageDigest (ImageInfo opts) = "")); simpl;
    rewrite ?length_map, ?map_map; simpl;
    rewrite ?skipn_cons, ?skipn_O, ?map_map; simpl;
    repeat split; try lia; try reflexivity;
    repeat (constructor; [reflexivity|]);
    apply List.Forall_forall; intros r Hr;
    apply in_map_iff in Hr as (p & <- & _); reflexivity.
Qed.

End Nodes.

Section PackageNodes.

Import spdx sbom_options sbom nodes ident.
Context `{Externals}.

Lemma bytewise_fixed (s : string) : allIdChars s = true -> bytewise s = s.
Proof.
  intros Hs. pose proof (replaceRuns_fixed escape s Hs) as Hfix.
  rewrite replaceRuns_bytewise in Hfix. exact Hfix.
Qed.

(** The identifier of a package node, piece by piece. *)
Lemma apkNodeID_parts (layerID : string) (pkg : repository.Package.t) :
  allIdChars layerID = true ->
  apkNodeID layerID pkg =
  "SPDXRef-Package-" +:+ layerID +:+ "-"
    +:+ stringToIdentifier (repository.Package.Name pkg) +:+ "-"
    +:+ stringToIdentifier (repository.Package.Version pkg).
Proof.
  intros Hl. unfold apkNodeID, stringToIdentifier, ReplaceAllStringFunc.
  rewrite !replaceRuns_bytewise. simpl escapeAll. rewrite !append_nil_l.
  rewrite !bytewise_app, (bytewise_fixed layerID Hl).
  reflexivity.
Qed.

(** X9: Every node of the document makes no claim on declared license and
    copyright, has not had its files analysed, carries exactly one
    external reference, a package-url, and at most one checksum. *)
Theorem node_fields (opts : Options) :
  exists doc,
    document opts = Go.Ok doc
    /\ Forall (fun p =>
                 Package.FilesAnalyzed p = false
                 /\ Package.LicenseDeclared p = NOASSERTION
                 /\ Package.CopyrightText p = NOASSERTION
                 /\ (exists r, Package.ExternalRefs p = [r] /\ isPurlRef r)
                 /\ (length (Package.Checksums p) <= 1)%nat)
         (Document.Packages doc).
Proof.
  destruct (document_shape opts)
    as (layer & nodes & doc & Hlayer & Hdoc & Hnodes & Hpk & _ & _).
  exists doc. split; [exact Hdoc|]. rewrite Hpk.
  apply Forall_app_2; [|constructor].
  - unfold imageNodes.
    destruct (decide (ImageDigest (ImageInfo opts) = "")); constructor;
      [|constructor].
    simpl. unfold isPurlRef. eauto 10.
  - unfold layerPackage in Hlayer. injection Hlayer as <-.
    simpl. unfold isPurlRef. eauto 10.
  - clear Hpk. induction Hnodes as [|pkg p pkgs ps Hp _ IH];
      constructor; [|exact IH].
    destruct Hp as (p0 & Hp0 & ->). unfold apkPackage in Hp0.
    injection Hp0 as <-. simpl. unfold isPurlRef. eauto 10.
Qed.

(** X10: The package nodes come after the image and layer nodes, one per
    resolved package and in the order of the list; each carries the name,
    version, license, description, URL and maintainer of its package, and
    its identifier is "SPDXRef-Package-", the layer node's identifier and
    the transformed name and version, joined by "-". *)
Theorem package_nodes (opts : Options) :
  exists layer doc,
    layerPackage opts = Go.Ok layer
    /\ document opts = Go.Ok doc
    /\ Forall2
         (fun pkg p =>
            Package.Name p = repository.Package.Name pkg
            /\ Package.Version p = repository.Package.Version pkg
            /\ Package.LicenseConcluded p = repository.Package.License pkg
            /\ Package.Description p = repository.Package.Description pkg
            /\ Package.DownloadLocation p = repository.Package.URL pkg
            /\ Package.Originator p = repository.Package.Maintainer pkg
            /\ Package.ID p =
               "SPDXRef-Package-" +:+ Package.ID layer +:+ "-"
                 +:+ stringToIdentifier (repository.Package.Name pkg) +:+ "-"
                 +:+ stringToIdentifier (repository.Package.Version pkg))
         (Packages opts)
         (drop (imageCount opts + 1) (Document.Packages doc)).
Proof.
  destruct (document_shape opts)
    as (layer & nodes & doc & Hlayer & Hdoc & Hnodes & Hpk & _ & _).
  exists layer, doc. split; [exact Hlayer|]. split; [exact Hdoc|].
  pose proof (layerPackage_ID opts layer Hlayer) as Hl.
  assert (Hdrop : drop (imageCount opts + 1) (Document.Packages doc) = nodes).
  { rewrite Hpk. unfold imageNodes, imageCount.
    destruct (decide (ImageDigest (ImageInfo opts) = "")); reflexivity. }
  rewrite Hdrop. clear Hpk Hdrop.
  induction Hnodes as [|pkg p pkgs ps Hp _ IH]; constructor; [|exact IH].
  destruct Hp as (p0 & Hp0 & ->). unfold apkPackage in Hp0.
  injection Hp0 as <-. simpl. repeat (split; [reflexivity|]).
  now apply apkNodeID_parts.
Qed.

Lemma hexDigits_byte (x : byte) :
  isLowerHex (Go.hexDigit (Byte.to_N x / 16)) = true
  /\ isLowerHex (Go.hexDigit (Byte.to_N x mod 16)) = true.
Proof. destruct x; split; reflexivity. Qed.

Lemma hex_lower (b : list byte) :
  allLowerHex (Go.hex b) = true
  /\ String.length (Go.hex b) = (2 * length b)%nat.
Proof.
  induction b as [|x b [IH1 IH2]]; simpl; [auto|].
  destruct (hexDigits_byte x) as [-> ->]. rewrite IH1, IH2.
  split; [reflexivity | lia].
Qed.

(** X11: The node of a resolved package has exactly one checksum, of
    algorithm "SHA1"; its value is the checksum of the package in
    lower-case hexadecimal, two digits per byte. *)
Theorem package_checksums (opts : Options) :
  exists doc,
    document opts = Go.Ok doc
    /\ Forall2
         (fun pkg p =>
            exists v,
              Package.Checksums p = [ {| Algorithm := "SHA1"; Value := v |} ]
              /\ allLowerHex v = true
              /\ String.length v
                 = (2 * length (repository.Package.Checksum pkg))%nat)
         (Packages opts)
         (drop (imageCount opts + 1) (Document.Packages doc)).
Proof.
  destruct (document_shape opts)
    as (layer & nodes & doc & Hlayer & Hdoc & Hnodes & Hpk & _ & _).
  exists doc. split; [exact Hdoc|].
  assert (Hdrop : drop (imageCount opts + 1) (Document.Packages doc) = nodes).
  { rewrite Hpk. unfold imageNodes, imageCount.
    destruct (decide (ImageDigest (ImageInfo opts) = "")); reflexivity. }
  rewrite Hdrop. clear Hpk Hdrop.
  induction Hnodes as [|pkg p pkgs ps Hp _ IH]; constructor; [|exact IH].
  destruct Hp as (p0 & Hp0 & ->). unfold apkPackage in Hp0.
  injection Hp0 as <-. simpl. eexists. split; [reflexivity|].
  apply hex_lower.
Qed.

End PackageNodes.

(** ** Writing the SBOM *)

Section GenerateFile.

Import spdx sbom_options sbom.
Context `{Externals}.

Lemma Is_refl (e : Go.error) : Go.Is e e = true.
Proof. destruct e; simpl; now rewrite decide_True. Qed.

(** The cause of a wrapped error is found again by [errors.Is]. *)
Lemma Is_wrapError (msg : string) (cause : Go.error) :
  Go.Is (Go.wrapError msg cause) cause = true.
Proof. simpl. destruct (decide _); [reflexivity | apply Is_refl]. Qed.

Lemma Is_Errorf (prefix : string) (cause : Go.error) :
  Go.Is (Go.Errorf prefix cause) cause = true.
Proof. apply Is_wrapError. Qed.

(** X15: [Generate] succeeds exactly when the host lets the file be created
    and written and the encoder accepts the document; the construction
    of the document never fails.  The file then holds the encoded
    document and nothing else, whatever it held before, and no other
    file of the host has changed. *)
Theorem Generate_writes (opts : Options) (path : string) (h : os.Host) :
  exists doc,
    document opts = Go.Ok doc
    /\ ((Generate opts path h).1 = None <->
        os.createErr h path = None
        /\ os.writeErr h path = None
        /\ exists data, jsonEncode doc = Go.Ok data)
    /\ (forall data,
          (Generate opts path h).1 = None ->
          jsonEncode doc = Go.Ok data ->
          os.files (Generate opts path h).2 !! path = Some data)
    /\ (forall q, q <> path ->
          os.files (Generate opts path h).2 !! q = os.files h !! q).
Proof.
  destruct (document_shape opts) as (layer & nodes & doc & _ & Hdoc & _).
  exists doc. split; [exact Hdoc|].
  unfold Generate, os.Create, os.Write. rewrite Hdoc.
  destruct (os.createErr h path) as [c|] eqn:Hc; simpl.
  - split; [split; [discriminate | intros (? & _); discriminate]|].
    split; [discriminate | reflexivity].
  - destruct (jsonEncode doc) as [data|e] eqn:Henc; simpl.
    + destruct (os.writeErr h path) as [c|] eqn:Hw; simpl.
      * split; [split; [discriminate | intros (_ & ? & _); discriminate]|].
        split; [discriminate|]. intros q Hq. now rewrite lookup_insert_ne.
      * split; [split; eauto|].
        split.
        -- intros data' _ Hd. injection Hd as <-.
           now rewrite !lookup_insert_eq.
        -- intros q Hq. now rewrite !lookup_insert_ne.
    + split; [split; [discriminate | intros (_ & _ & ? & ?); discriminate]|].
      split; [discriminate|]. intros q Hq. now rewrite lookup_insert_ne.
Qed.


End GenerateFile.

(** ** More on the assembly pipeline *)

Section PipelineErrors.

Import apkfs build pipeline.
Context `{Collaborators}.

Lemma Is_wrapWith (prefix : option string) (cause : Go.error) :
  Go.Is (wrapWith prefix cause) cause = true.
Proof. destruct prefix; simpl; [apply Is_Errorf | apply Is_refl]. Qed.

(** A run that ends in an error ends in the error of one statement, the
    statements before it having succeeded. *)
Lemma runSteps_error_inv (ss : list Step) :
  forall f r f',
    runSteps ss f = (Some r, f') ->
    exists pre s post f1 e,
      ss = pre ++ s :: post
      /\ runSteps pre f = (None, f1)
      /\ run s f1 = (Some e, f')
      /\ r = wrapWith (wrap s) e.
Proof.
  induction ss as [|s ss IH]; intros f r f' Hrun; simpl in Hrun;
    [discriminate|].
  destruct (run s f) as [[e|] f1] eqn:Hs.
  - injection Hrun as <- <-. exists [], s, ss, f, e. auto.
  - destruct (IH _ _ _ Hrun) as (pre & s' & post & f2 & e & -> & Hpre & Hs' & ->).
    exists (s :: pre), s', post, f2, e. simpl. rewrite Hs. auto.
Qed.

(** X17: Every error of [buildImage] is the error of one of its statements,
    as the statement returned it or wrapped once; the statements before
    have succeeded, the context is the one the failing statement left,
    and [errors.Is] finds the statement's error in the one returned. *)
Theorem buildImage_error_origin (bc bc' : Context) (r : Go.error) :
  buildImage bc = (Go.Err r, bc') ->
  exists pre s post f1 f2 e,
    steps = pre ++ s :: post
    /\ runSteps pre (bc, []) = (None, f1)
    /\ run s f1 = (Some e, f2)
    /\ bc' = f2.1
    /\ r = wrapWith (wrap s) e
    /\ Go.Is r e = true.
Proof.
  rewrite buildImage_steps.
  destruct (runSteps steps (bc, [])) as [[r0|] f2] eqn:Hrun; simpl;
    [|discriminate].
  intros Hr. injection Hr as <- <-.
  destruct (runSteps_error_inv _ _ _ _ Hrun)
    as (pre & s & post & f1 & e & Hsplit & Hpre & Hs & ->).
  exists pre, s, post, f1, f2, e. auto 10 using Is_wrapWith.
Qed.

(** The statements other than the OS-release one log nothing. *)
Lemma quiet_steps (s : Step) :
  In s (take 4 steps ++ drop 5 steps) ->
  forall f e f', run s f = (e, f') -> logged f'.1 = logged f.1.
Proof.
  intros Hs. simpl in Hs.
  repeat (destruct Hs as [<-|Hs];
    [intros [bc inst] e f'; cbn [run];
     unfold lift, onFS, additionalTags; cbn [fst snd];
     intros Hrun; repeat case_match; simplify_eq; reflexivity
    |]).
  contradiction.
Qed.

Lemma runSteps_quiet (ss : list Step) :
  (forall s, In s ss -> In s (take 4 steps ++ drop 5 steps)) ->
  forall f e f', runSteps ss f = (e, f') -> logged f'.1 = logged f.1.
Proof.
  induction ss as [|s ss IH]; intros Hin f e f' Hrun; simpl in Hrun.
  - now injection Hrun as <- <-.
  - destruct (run s f) as [[e1|] f1] eqn:Hs.
    + injection Hrun as <- <-.
      eapply quiet_steps; [apply Hin; simpl; auto | exact Hs].
    + transitivity (logged f1.1).
      * eapply IH; [|exact Hrun]. intros s' Hs'. apply Hin. simpl. auto.
      * eapply quiet_steps; [apply Hin; simpl; auto | exact Hs].
Qed.

(** X18: What [buildImage] logs: at most one warning, from the OS-release
    statement, and then, exactly when it succeeds, the closing line with
    the working directory. *)
Theorem buildImage_log (bc : Context) :
  exists w,
    (w = [] \/ exists msg, w = [(Warn, msg)])
    /\ logged (buildImage bc).2 =
       logged bc ++ w ++
       match (buildImage bc).1 with
       | Go.Ok _ =>
         [(Info, "finished building filesystem in " +:+ WorkDir (o bc))]
       | Go.Err _ => []
       end.
Proof.
  pose proof (buildImage_keeps bc) as ((Hwd & _) & _).
  assert (Q4 : forall s, In s (take 4 steps) ->
                         In s (take 4 steps ++ drop 5 steps))
    by (intros s Hs; apply in_or_app; auto).
  assert (Q5 : forall s, In s (drop 5 steps) ->
                         In s (take 4 steps ++ drop 5 steps))
    by (intros s Hs; apply in_or_app; auto).
  rewrite buildImage_steps in Hwd |- *.
  change steps with
    (take 4 steps
       ++ {| name := "GenerateOSRelease";
             wrap := Some "failed to generate /etc/os-release";
             run := lift osReleaseBare |} :: drop 5 steps) in Hwd |- *.
  rewrite runSteps_app in Hwd |- *.
  destruct (runSteps (take 4 steps) (bc, [])) as [[e|] f4] eqn:H4;
    pose proof (runSteps_quiet _ Q4 _ _ _ H4) as L4; simpl in L4.
  { exists []. split; [auto|]. simpl. now rewrite app_nil_r. }
  cbn [runSteps run wrap] in Hwd |- *.
  destruct (lift osReleaseBare f4) as [[e|] f5] eqn:H5.
  { exists []. split; [auto|]. simpl. rewrite app_nil_r, <- L4.
    unfold lift, osReleaseBare, Warnf in H5.
    repeat case_match; simplify_eq; reflexivity. }
  assert (L5 : exists w, (w = [] \/ exists msg, w = [(Warn, msg)])
                         /\ logged f5.1 = logged f4.1 ++ w).
  { unfold lift, osReleaseBare, Warnf in H5.
    repeat case_match; simplify_eq; simpl;
      first [ exists []; rewrite app_nil_r; split; [auto | reflexivity]
            | eexists; split; [right; eauto | reflexivity] ]. }
  destruct L5 as (w & Hw & L5). exists w. split; [exact Hw|].
  destruct (runSteps (drop 5 steps) f5) as [[e|] f9] eqn:H9;
    pose proof (runSteps_quiet _ Q5 _ _ _ H9) as L9; simpl in Hwd |- *.
  - now rewrite app_nil_r, L9, L5, L4.
  - rewrite L9, L5, L4, <- Hwd, <- app_assoc. reflexivity.
Qed.

End PipelineErrors.

(** ** More on the tarball encoder *)

Create HintDb hosts.

Section HostFrame.

Import apkfs build pipeline hosts.

Lemma sameElsewhere_refl (name : string) (h : os.Host) :
  sameElsewhere name h h.
Proof. unfold sameElsewhere. auto 10. Qed.

Lemma sameElsewhere_trans (name : string) (h1 h2 h3 : os.Host) :
  sameElsewhere name h1 h2 -> sameElsewhere name h2 h3 ->
  sameElsewhere name h1 h3.
Proof.
  unfold sameElsewhere.
  intros (?&?&?&?&Hq&Hs) (?&?&?&?&Hq'&Hs').
  repeat split; try congruence; [|auto].
  intros q Hne. rewrite Hq', Hq; auto.
Qed.

Lemma sameElsewhere_setFile (name : string) (h : os.Host) (d : list byte) :
  sameElsewhere name h (os.setFile h name d).
Proof.
  unfold sameElsewhere. simpl. repeat split.
  - intros q Hq. now rewrite lookup_insert_ne.
  - intros _. rewrite lookup_insert_eq. eauto.
Qed.

#[local] Hint Resolve sameElsewhere_refl sameElsewhere_setFile : hosts.

Lemma File_Write_elsewhere (name : string) (p : list byte) (h : os.Host) :
  sameElsewhere name h (io.Write {| io.Name := name |} p h).2.2.
Proof.
  unfold io.Write, io.File_Writer, os.Write. simpl.
  destruct (os.writeErr h name); simpl; auto with hosts.
Qed.

Lemma bufio_Flush_elsewhere (b : bufio.Writer io.File) (h : os.Host) :
  sameElsewhere (io.Name (bufio.wr b)) h (bufio.Flush b h).2.2
  /\ bufio.wr (bufio.Flush b h).2.1 = bufio.wr b.
Proof.
  destruct b as [err buf size [name]].
  unfold bufio.Flush, io.Write, io.File_Writer, os.Write. simpl.
  repeat (case_match; simplify_eq/=); auto with hosts.
Qed.

Lemma bufio_direct_elsewhere (b : bufio.Writer io.File) (p : list byte)
    (h : os.Host) :
  sameElsewhere (io.Name (bufio.wr b)) h (bufio.direct b p h).2.2
  /\ bufio.wr (bufio.direct b p h).2.1 = bufio.wr b.
Proof.
  destruct b as [err buf size [name]].
  unfold bufio.direct, io.Write, io.File_Writer, os.Write. simpl.
  repeat (case_match; simplify_eq/=); auto with hosts.
Qed.

(** A buffered write touches the file under it and nothing else. *)
Lemma bufio_Write_elsewhere (b : bufio.Writer io.File) (p : list byte)
    (h : os.Host) :
  sameElsewhere (io.Name (bufio.wr b)) h (bufio.Write b p h).2.2
  /\ bufio.wr (bufio.Write b p h).2.1 = bufio.wr b.
Proof.
  unfold bufio.Write.
  destruct (bufio.err b); [simpl; auto with hosts|].
  destruct (Z.of_nat (length p) <=? bufio.Available b);
    [simpl; auto with hosts|].
  destruct (bufio.buf b) as [|x l] eqn:Hbuf; [apply bufio_direct_elsewhere|].
  set (b0 := bufio.store b (take (Z.to_nat (bufio.Available b)) p)).
  pose proof (bufio_Flush_elsewhere b0 h) as [Hf Hw].
  destruct (bufio.Flush b0 h) as [[e|] [b1 h1]]; simpl in Hf, Hw;
    [simpl; auto|].
  set (p' := drop (Z.to_nat (bufio.Available b)) p).
  destruct (Z.of_nat (length p') <=? bufio.Available b1); [simpl; auto|].
  pose proof (bufio_direct_elsewhere b1 p' h1) as [Hd Hw'].
  rewrite Hw in Hd, Hw'. simpl in Hd, Hw'.
  split; [eapply sameElsewhere_trans; eassumption | exact Hw'].
Qed.

End HostFrame.

Section EncoderMore.

Import apkfs build pipeline hosts.
Context `{Collaborators}.

(** [BuildTarball] once the output file is created: the path is recorded
    in the options, the host changes in that one file only, which stays
    in place; a success is logged, a failure is not, and an error is a
    wrapped one. *)
Lemma BuildTarball_created (bc : Context) (h : os.Host) :
  os.createErr h (target bc) = None ->
  let bc1 := setO bc (setTarballPath (o bc) (target bc)) in
  sameElsewhere (target bc) (os.setFile h (target bc) [])
    (BuildTarball bc h).2.2
  /\ match (BuildTarball bc h).1 with
     | Go.Ok r =>
       (BuildTarball bc h).2.1
       = log bc1 Info ("built image layer tarball as " +:+ target bc)
     | Go.Err e =>
       (BuildTarball bc h).2.1 = bc1
       /\ exists msg c, e = Go.wrapError msg c
     end.
Proof.
  intros Hc bc1.
  destruct (BuildTarball bc h) as [res [bc' h']] eqn:Hrun. simpl.
  revert Hrun.
  unfold BuildTarball. fold (target bc). unfold os.Create. rewrite Hc.
  cbn [tarball.NewContext o setO setTarballPath SourceDateEpoch fs].
  fold bc1. unfold WriteTar.
  destruct (tarStream _ (fs bc)) as [chunks failure].
  rewrite writeAll_fanout. cbn [fst snd io.fst_w io.snd_w].
  set (h0 := os.setFile h (target bc) []).
  destruct failure as [e|].
  { intros Hr. injection Hr as <- <- <-.
    split; [apply sameElsewhere_refl | eauto]. }
  unfold gzip.Close. cbn [gzip.input gzip.under hash.absorbed hash.New
    gzip.NewWriter app].
  unfold io.Write at 1. unfold io.MultiWriter_Writer.
  unfold io.Write at 1. unfold hash.Hash_Writer.
  cbn [io.fst_w io.snd_w hash.absorbed app].
  set (data := compress (concat chunks)).
  set (b0 := bufio.NewWriterSize {| io.Name := target bc |} (Z.shiftl 1 22)).
  pose proof (bufio_Write_elsewhere b0 data h0) as [Hw Hwr].
  change (io.Write b0 data h0) with (bufio.Write b0 data h0).
  destruct (bufio.Write b0 data h0) as [[e|] [b1 h1]]; simpl in Hw, Hwr.
  { intros Hr. injection Hr as <- <- <-. split; [exact Hw | eauto]. }
  cbn [gzip.under io.fst_w io.snd_w].
  pose proof (bufio_Flush_elsewhere b1 h1) as [Hf _].
  rewrite Hwr in Hf. simpl in Hf.
  destruct (bufio.Flush b1 h1) as [[e|] [b2 h2]]; simpl in Hf;
    assert (H02 : sameElsewhere (target bc) h0 h2)
      by (eapply sameElsewhere_trans; eassumption).
  { intros Hr. injection Hr as <- <- <-. split; [exact H02 | eauto]. }
  unfold os.StatSize. destruct (os.statErr h2 (target bc));
    intros Hr; injection Hr as <- <- <-; split; eauto.
Qed.

(** X20: The host after [BuildTarball], however it ends: only the output file
    may have changed; the other files, the clock and the outcomes the
    host gives are as before.  The tree, the tag list and the image
    configuration of the context are as before. *)
Theorem BuildTarball_touches_one_file (bc : Context) (h : os.Host) :
  let h' := (BuildTarball bc h).2.2 in
  let bc' := (BuildTarball bc h).2.1 in
  (forall q, q <> target bc -> os.files h' !! q = os.files h !! q)
  /\ os.createErr h' = os.createErr h
  /\ os.writeErr h' = os.writeErr h
  /\ os.statErr h' = os.statErr h
  /\ os.now h' = os.now h
  /\ fs bc' = fs bc
  /\ Tags (o bc') = Tags (o bc)
  /\ ic bc' = ic bc.
Proof.
  intros h' bc'.
  destruct (BuildTarball_frame bc h) as (_ & Ht & Hi & Hf & _).
  fold bc' in Ht, Hi, Hf.
  assert (Hh : sameElsewhere (target bc) h h').
  { destruct (os.createErr h (target bc)) as [c|] eqn:Hc.
    - subst h'. unfold BuildTarball. fold (target bc). unfold os.Create.
      rewrite Hc. simpl. apply sameElsewhere_refl.
    - eapply sameElsewhere_trans; [apply sameElsewhere_setFile|].
      apply (BuildTarball_created bc h Hc). }
  destruct Hh as (?&?&?&?&?&_). auto 10.
Qed.

(** X21: A failure of [BuildTarball] is one of two.  The output file could
    not be created: the context and the host are as they were.  Or it
    was created: the file stays in place and its path stays recorded in
    the options, and nothing is logged.  Either way the error is a cause
    wrapped once, which [errors.Is] finds. *)
Theorem BuildTarball_fails (bc bc' : Context) (h h' : os.Host) (e : Go.error) :
  BuildTarball bc h = (Go.Err e, (bc', h')) ->
  (exists msg c, e = Go.wrapError msg c /\ Go.Is e c = true)
  /\ ((os.createErr h (target bc) <> None /\ bc' = bc /\ h' = h)
      \/ (os.createErr h (target bc) = None
          /\ TarballPath (o bc') = target bc
          /\ is_Some (os.files h' !! target bc)
          /\ logged bc' = logged bc)).
Proof.
  intros Hrun.
  destruct (os.createErr h (target bc)) as [c|] eqn:Hc.
  - unfold BuildTarball in Hrun. fold (target bc) in Hrun.
    unfold os.Create in Hrun. rewrite Hc in Hrun.
    injection Hrun as <- <- <-.
    split; [unfold Go.Errorf; eauto using Is_wrapError|]. left. auto.
  - destruct (BuildTarball_created bc h Hc) as [Hh Hres].
    rewrite Hrun in Hh, Hres. simpl in Hh, Hres.
    destruct Hres as (-> & msg & c & ->).
    split; [eauto using Is_wrapError|]. right.
    repeat split; auto.
    destruct Hh as (_&_&_&_&_&Hs). apply Hs. simpl.
    rewrite lookup_insert_eq. eauto.
Qed.

(** X22: Digest correctness.  After a successful [BuildTarball] the file at
    the returned path holds exactly the bytes the digest hash has
    absorbed, the size is their number, those bytes are the compressed
    form of what the diffID hash has absorbed, and so decompressing the
    file gives back the bytes of the diffID; the path returned is the one
    recorded in the options. *)
Theorem BuildTarball_digests (bc bc' : Context) (h h' : os.Host)
    (r : Tarball) :
  BuildTarball bc h = (Go.Ok r, (bc', h')) ->
  os.files h' !! path r = Some (hash.absorbed (digest r))
  /\ size r = Z.of_nat (length (hash.absorbed (digest r)))
  /\ hash.absorbed (digest r) = compress (hash.absorbed (diffid r))
  /\ (forall decompress : list byte -> list byte,
        (forall x, decompress (compress x) = x) ->
        decompress (hash.absorbed (digest r)) = hash.absorbed (diffid r))
  /\ TarballPath (o bc') = path r.
Proof.
  intros Hrun.
  destruct (BuildTarball_spec _ _ _ _ _ Hrun) as (Hp & Hd & Hg & Hf & Hs).
  rewrite Hf, Hs, Hg, Hd, Hp. simpl. unfold archive.
  repeat split; auto.
  assert (Hc : os.createErr h (target bc) = None).
  { unfold BuildTarball in Hrun. fold (target bc) in Hrun.
    unfold os.Create in Hrun.
    destruct (os.createErr h (target bc)); [discriminate | reflexivity]. }
  destruct (BuildTarball_created bc h Hc) as [_ Hres].
  rewrite Hrun in Hres. simpl in Hres. now rewrite Hres.
Qed.

Lemma target_recorded (bc : Context) :
  target (setO bc (setTarballPath (o bc) (target bc))) = target bc.
Proof.
  unfold target. simpl.
  destruct (decide (TarballPath (o bc) = "")) as [He|Hne].
  - destruct (decide (defaultTarballPath (o bc) = "")) as [Hd|Hd];
      [|reflexivity].
    rewrite Hd. destruct bc as [[] ? ? ?]; simpl in *. subst.
    exact Hd.
  - destruct (decide (TarballPath (o bc) = "")); [contradiction|reflexivity].
Qed.

(** X23: Running [BuildTarball] again on what it left gives the same result:
    the same path, hashes and size, and the same bytes in the file. *)
Theorem BuildTarball_again (bc bc' bc'' : Context) (h h' h'' : os.Host)
    (r r2 : Tarball) :
  BuildTarball bc h = (Go.Ok r, (bc', h')) ->
  BuildTarball bc' h' = (Go.Ok r2, (bc'', h'')) ->
  r2 = r
  /\ os.files h'' !! path r = os.files h' !! path r
  /\ o bc'' = o bc'.
Proof.
  intros Hrun Hrun2.
  assert (Hc : os.createErr h (target bc) = None).
  { unfold BuildTarball in Hrun. fold (target bc) in Hrun.
    unfold os.Create in Hrun.
    destruct (os.createErr h (target bc)); [discriminate | reflexivity]. }
  assert (Hc2 : os.createErr h' (target bc') = None).
  { unfold BuildTarball in Hrun2. fold (target bc') in Hrun2.
    unfold os.Create in Hrun2.
    destruct (os.createErr h' (target bc')); [discriminate | reflexivity]. }
  destruct (BuildTarball_created bc h Hc) as [_ Hres].
  rewrite Hrun in Hres. simpl in Hres.
  destruct (BuildTarball_created bc' h' Hc2) as [_ Hres2].
  rewrite Hrun2 in Hres2. simpl in Hres2.
  assert (Ht : target bc' = target bc)
    by (rewrite Hres; apply target_recorded).
  assert (Hb : tarBytes bc' = tarBytes bc) by (now rewrite Hres).
  assert (Ho : o bc'' = o bc').
  { rewrite Hres2. simpl. rewrite Ht, Hres. reflexivity. }
  destruct (BuildTarball_spec _ _ _ _ _ Hrun) as (Hp & Hd & Hg & Hf & Hs).
  destruct (BuildTarball_spec _ _ _ _ _ Hrun2)
    as (Hp2 & Hd2 & Hg2 & Hf2 & Hs2).
  unfold archive in *. rewrite Hb in *. rewrite Ht in *.
  assert (Hr : r2 = r).
  { destruct r, r2. simpl in *. congruence. }
  subst r2. split; [reflexivity|]. split; congruence.
Qed.

End EncoderMore.

(** ** The index file *)

Section IndexFile.

Import apkfs build build_index hosts.
Context `{Paths}.

(** X25: When [WriteIndex] succeeds the file at the returned path, the
    "index.json" of the temporary directory, holds exactly the raw
    manifest of the index, whatever it held before; the size returned is
    the number of its bytes; no other file has changed and the context
    has one more log line. *)
Theorem WriteIndex_writes (idx : oci.SignedImageIndex) (bc bc' : Context)
    (h h' : os.Host) (p : string) (n : Z) :
  WriteIndex idx bc h = (Go.Ok (p, n), (bc', h')) ->
  exists b,
    oci.RawManifest idx = Go.Ok b
    /\ p = Join (TempDir (o bc)) "index.json"
    /\ os.files h' !! p = Some b
    /\ n = Z.of_nat (length b)
    /\ (forall q, q <> p -> os.files h' !! q = os.files h !! q)
    /\ bc' = log bc Info ("built index file as " +:+ p).
Proof.
  unfold WriteIndex, WriteFile, os.Create, os.Write, os.StatSize.
  destruct (oci.RawManifest idx) as [b|e]; [|discriminate].
  set (outfile := Join (TempDir (o bc)) "index.json").
  destruct (os.createErr h outfile); [discriminate|]. simpl.
  destruct (os.writeErr h outfile); [discriminate|]. simpl.
  destruct (os.statErr h outfile); [discriminate|].
  intros Hr. injection Hr as <- <- <- <-. exists b.
  rewrite !lookup_insert_eq. simpl. rewrite lookup_insert_eq. simpl.
  repeat split; auto.
  intros q Hq. now rewrite !lookup_insert_ne.
Qed.

(** X26: When [WriteIndex] fails the context is as it was and the error wraps
    its cause; nothing is written unless the file could be created, and
    then only that file is touched. *)
Theorem WriteIndex_fails (idx : oci.SignedImageIndex) (bc bc' : Context)
    (h h' : os.Host) (e : Go.error) :
  WriteIndex idx bc h = (Go.Err e, (bc', h')) ->
  let outfile := Join (TempDir (o bc)) "index.json" in
  bc' = bc
  /\ (exists msg c, e = Go.wrapError msg c /\ Go.Is e c = true)
  /\ (forall q, q <> outfile -> os.files h' !! q = os.files h !! q)
  /\ ((exists c, oci.RawManifest idx = Go.Err c)
      \/ os.createErr h outfile <> None -> h' = h).
Proof.
  intros Hrun outfile. revert Hrun.
  unfold WriteIndex, WriteFile, os.Create, os.Write, os.StatSize.
  fold outfile.
  destruct (oci.RawManifest idx) as [b|c].
  - destruct (os.createErr h outfile) as [c|]; simpl.
    + intros Hr. injection Hr as <- <- <-.
      unfold Go.Errorf. eauto 10 using Is_wrapError.
    + destruct (os.writeErr h outfile) as [c|]; simpl.
      * intros Hr. injection Hr as <- <- <-.
        split; [reflexivity|].
        split; [unfold Go.Errorf; eauto using Is_wrapError|].
        split; [intros q Hq; simpl; now rewrite lookup_insert_ne|].
        intros [[c' Hc']|Hc']; [discriminate | contradiction].
      * destruct (os.statErr h outfile) as [c|]; [|discriminate].
        intros Hr. injection Hr as <- <- <-.
        split; [reflexivity|].
        split; [unfold Go.Errorf; eauto using Is_wrapError|].
        split; [intros q Hq; simpl; now rewrite !lookup_insert_ne|].
        intros [[c' Hc']|Hc']; [discriminate | contradiction].
  - intros Hr. injection Hr as <- <- <-.
    unfold Go.Errorf. eauto 10 using Is_wrapError.
Qed.

End IndexFile.

(** ** Examples *)

Section MoreExamples.

Import spdx sbom_options sbom apkfs build pipeline build_index hosts.


Lemma buildImage_error_origin_witness :
  let C := sampleCollaborators true false false in
  let bc := sampleContext "" ∅ in
  exists r bc' s e,
    @buildImage C bc = (Go.Err r, bc')
    /\ In s (@steps C)
    /\ r = wrapWith (wrap s) e
    /\ Go.Is r e = true.
Proof.
  cbv zeta.
  destruct (@buildImage (sampleCollaborators true false false)
              (sampleContext "" ∅)) as [[[]|r] bc'] eqn:Hb;
    [vm_compute in Hb; discriminate|].
  destruct (@buildImage_error_origin _ _ _ _ Hb)
    as (pre & s & post & f1 & f2 & e & Hsplit & _ & _ & _ & Hr & His).
  exists r, bc', s, e. split; [reflexivity|].
  split; [rewrite Hsplit; apply in_or_app; simpl; auto|]. auto.
Defined.

Lemma BuildTarball_succeeds_witness :
  let C := sampleCollaborators false false false in
  let bc := sampleContext "" ∅ in
  exists r bc' h', @BuildTarball C bc (sampleHost 0) = (Go.Ok r, (bc', h')).
Proof.
  cbv zeta. apply (@BuildTarball_succeeds (sampleCollaborators false false false));
    reflexivity.
Defined.

Lemma BuildTarball_fails_witness :
  (let C := sampleCollaborators false false false in
   let bc := sampleContext "" ∅ in
   exists e bc' h',
     @BuildTarball C bc readOnlyHost = (Go.Err e, (bc', h'))
     /\ bc' = bc /\ h' = readOnlyHost)
  /\ (let C := sampleCollaborators false false false in
      let bc := sampleContext "" ∅ in
      exists e bc' h',
        @BuildTarball C bc fullHost = (Go.Err e, (bc', h'))
        /\ TarballPath (o bc') = "/tmp/apko/amd64.tar.gz"
        /\ is_Some (os.files h' !! "/tmp/apko/amd64.tar.gz")).
Proof.
  split; cbv zeta.
  - destruct (@BuildTarball (sampleCollaborators false false false)
                (sampleContext "" ∅) readOnlyHost)
      as [[r|e] [bc' h']] eqn:Hb; [vm_compute in Hb; discriminate|].
    exists e, bc', h'. split; [reflexivity|].
    destruct (@BuildTarball_fails _ _ _ _ _ _ Hb) as (_ & [(_ & -> & ->)|(Hc & _)]);
      [auto | vm_compute in Hc; discriminate].
  - destruct (@BuildTarball (sampleCollaborators false false false)
                (sampleContext "" ∅) fullHost)
      as [[r|e] [bc' h']] eqn:Hb; [vm_compute in Hb; discriminate|].
    exists e, bc', h'. split; [reflexivity|].
    destruct (@BuildTarball_fails _ _ _ _ _ _ Hb)
      as (_ & [(Hc & _)|(_ & Hp & Hf & _)]);
      [exfalso; apply Hc; reflexivity | auto].
Defined.

Lemma BuildTarball_digests_witness :
  let C := sampleCollaborators false false false in
  let bc := sampleContext "" (<["etc/passwd" := entry "root"]> ∅) in
  exists r bc' h',
    @BuildTarball C bc (sampleHost 0) = (Go.Ok r, (bc', h'))
    /\ os.files h' !! path r = Some (hash.absorbed (digest r))
    /\ size r = Z.of_nat (length (hash.absorbed (digest r)))
    /\ hash.absorbed (digest r) = @compress C (hash.absorbed (diffid r))
    /\ TarballPath (o bc') = path r.
Proof.
  cbv zeta.
  destruct (@BuildTarball (sampleCollaborators false false false)
              (sampleContext "" (<["etc/passwd" := entry "root"]> ∅))
              (sampleHost 0))
    as [[r|e] [bc' h']] eqn:Hb; [|vm_compute in Hb; discriminate].
  exists r, bc', h'. split; [reflexivity|].
  destruct (@BuildTarball_digests _ _ _ _ _ _ Hb) as (? & ? & ? & _ & ?).
  auto.
Defined.

Lemma BuildTarball_again_witness :
  let C := sampleCollaborators false false false in
  let bc := sampleContext "" (<["etc/passwd" := entry "root"]> ∅) in
  exists r r2 bc' bc'' h' h'',
    @BuildTarball C bc (sampleHost 0) = (Go.Ok r, (bc', h'))
    /\ @BuildTarball C bc' h' = (Go.Ok r2, (bc'', h''))
    /\ r2 = r
    /\ os.files h'' !! path r = os.files h' !! path r
    /\ o bc'' = o bc'.
Proof.
  cbv zeta.
  destruct (@BuildTarball (sampleCollaborators false false false)
              (sampleContext "" (<["etc/passwd" := entry "root"]> ∅))
              (sampleHost 0))
    as [[r|e] [bc' h']] eqn:Hb; [|vm_compute in Hb; discriminate].
  destruct (@BuildTarball (sampleCollaborators false false false) bc' h')
    as [[r2|e] [bc'' h'']] eqn:Hb2.
  - exists r, r2, bc', bc'', h', h''.
    split; [reflexivity|]. split; [exact Hb2|].
    exact (@BuildTarball_again _ _ _ _ _ _ _ _ _ Hb Hb2).
  - exfalso. vm_compute in Hb. injection Hb as <- <- <-.
    vm_compute in Hb2. discriminate.
Defined.

Lemma WriteIndex_writes_witness :
  let bc := sampleContext "" ∅ in
  exists p n bc' h',
    @WriteIndex samplePaths sampleIndex bc (sampleHost 0)
    = (Go.Ok (p, n), (bc', h'))
    /\ p = "/tmp/apko/index.json"
    /\ os.files h' !! p = Some [x7b; x7d]
    /\ n = 2.
Proof.
  cbv zeta.
  destruct (@WriteIndex samplePaths sampleIndex (sampleContext "" ∅)
              (sampleHost 0)) as [[[p n]|e] [bc' h']] eqn:Hw;
    [|vm_compute in Hw; discriminate].
  exists p, n, bc', h'. split; [reflexivity|].
  destruct (@WriteIndex_writes _ _ _ _ _ _ _ _ Hw)
    as (b & Hb & -> & Hf & -> & _).
  vm_compute in Hb. injection Hb as <-. auto.
Defined.

Lemma WriteIndex_fails_witness :
  let bc := sampleContext "" ∅ in
  exists e bc' h',
    @WriteIndex samplePaths sampleIndex bc readOnlyHost
    = (Go.Err e, (bc', h'))
    /\ bc' = bc
    /\ h' = readOnlyHost.
Proof.
  cbv zeta.
  destruct (@WriteIndex samplePaths sampleIndex (sampleContext "" ∅)
              readOnlyHost) as [[[p n]|e] [bc' h']] eqn:Hw;
    [vm_compute in Hw; discriminate|].
  exists e, bc', h'. split; [reflexivity|].
  destruct (@WriteIndex_fails _ _ _ _ _ _ _ Hw) as (-> & _ & _ & Hh).
  split; [reflexivity|]. apply Hh. right. discriminate.
Defined.

End MoreExamples.

(** ** The document header, the layer name and the image checksum *)

Section Header.

Import spdx sbom_options sbom header.
Context `{Externals}.

Lemma sameHeader_refl (d : Document.t) : sameHeader d d.
Proof. unfold sameHeader. auto 10. Qed.

Lemma sameHeader_trans (d1 d2 d3 : Document.t) :
  sameHeader d1 d2 -> sameHeader d2 d3 -> sameHeader d1 d3.
Proof.
  unfold sameHeader. intros (?&?&?&?&?&?) (?&?&?&?&?&?).
  repeat split; congruence.
Qed.

(** The loop over the packages leaves the header alone. *)
Lemma rangePackages_header (opts : Options) (layer : Package.t)
    (pkgs : list repository.Package.t) :
  forall doc doc',
    rangePackages opts layer doc pkgs = Go.Ok doc' -> sameHeader doc doc'.
Proof.
  induction pkgs as [|pkg rest IH]; intros doc doc' Hrun.
  - injection Hrun as <-. apply sameHeader_refl.
  - cbn [rangePackages] in Hrun.
    destruct (rangeBody_spec opts layer doc pkg) as (p & _ & Hbody).
    rewrite Hbody in Hrun. cbn [Go.bind] in Hrun.
    eapply sameHeader_trans; [|apply (IH _ _ Hrun)].
    unfold sameHeader. simpl. auto 10.
Qed.

(** X14: The header of the document: the fixed identifier, schema version,
    data license, namespace and license-list version; the name "sbom",
    followed by "-" and the layer digest when there is one; the creation
    time is the formatted source timestamp of the options, not a time
    read from the host; the creators are the tool with its version and
    the organisation. *)
Theorem document_header (opts : Options) :
  exists doc,
    document opts = Go.Ok doc
    /\ Document.ID doc = "SPDXRef-DOCUMENT"
    /\ Document.Version doc = "SPDX-2.2"
    /\ Document.DataLicense doc = "CC0-1.0"
    /\ Document.Namespace doc = "https://spdx.org/spdxdocs/apko/"
    /\ Document.Name doc =
       (if decide (LayerDigest (ImageInfo opts) = "") then "sbom"
        else "sbom-" +:+ LayerDigest (ImageInfo opts))
    /\ Created (Document.CreationInfo doc)
       = FormatRFC3339 (SourceDateEpoch (ImageInfo opts))
    /\ LicenseListVersion (Document.CreationInfo doc) = "3.16"
    /\ Creators (Document.CreationInfo doc)
       = [ "Tool: apko (" +:+ GitVersion +:+ ")";
           "Organization: Chainguard, Inc" ].
Proof.
  destruct (document_shape opts) as (layer & nodes & doc & Hl & Hdoc & _).
  exists doc. split; [exact Hdoc|].
  unfold document in Hdoc. rewrite Hl in Hdoc. simpl in Hdoc.
  apply rangePackages_header in Hdoc.
  destruct Hdoc as (-> & -> & -> & -> & -> & ->).
  destruct (decide (ImageDigest (ImageInfo opts) = ""));
    destruct (decide (LayerDigest (ImageInfo opts) = ""));
    simpl; auto 10.
Qed.



Lemma cutPrefix_Some (p s r : string) :
  Go.cutPrefix p s = Some r -> s = p +:+ r.
Proof.
  revert s. induction p as [|a p IH]; intros s Hc; simpl in Hc.
  - now injection Hc as ->.
  - destruct s as [|b s]; [discriminate|].
    destruct (Ascii.eqb a b) eqn:Hab; [|discriminate].
    apply Ascii.eqb_eq in Hab as ->. rewrite (IH _ Hc).
    now autorewrite with gostring.
Qed.

Lemma cutPrefix_append (p r : string) : Go.cutPrefix p (p +:+ r) = Some r.
Proof.
  induction p as [|a p IH]; [reflexivity|].
  autorewrite with gostring. cbn [Go.cutPrefix].
  now rewrite Ascii.eqb_refl.
Qed.

(** X12: The value of the image checksum for any digest: the digest with one
    leading "sha256:" taken off, or the digest as it is, which then does
    not start with "sha256:". *)
Theorem image_checksum_value (opts : Options) :
  exists v,
    Package.Checksums (imagePackage opts)
    = [ {| Algorithm := "SHA256"; Value := v |} ]
    /\ (ImageDigest (ImageInfo opts) = "sha256:" +:+ v
        \/ (v = ImageDigest (ImageInfo opts)
            /\ forall r, ImageDigest (ImageInfo opts) <> "sha256:" +:+ r)).
Proof.
  eexists. split; [reflexivity|]. unfold Go.TrimPrefix.
  destruct (Go.cutPrefix "sha256:" (ImageDigest (ImageInfo opts)))
    as [rest|] eqn:Hc.
  - left. now apply cutPrefix_Some.
  - right. split; [reflexivity|]. intros r Hr.
    rewrite Hr, cutPrefix_append in Hc. discriminate.
Qed.

End Header.

(** ** The tags after the pipeline *)

Section Tags.

Import apkfs build pipeline.
Context `{Collaborators}.

(** The statements other than [additionalTags] leave the options as
    they are. *)
Lemma steps_keep_options (s : Step) :
  In s (take 1 steps ++ drop 2 steps) ->
  forall f e f', run s f = (e, f') -> o f'.1 = o f.1.
Proof.
  intros Hs. simpl in Hs.
  repeat (destruct Hs as [<-|Hs];
    [intros [bc inst] e f'; cbn [run];
     unfold lift, onFS, osReleaseBare, Warnf; cbn [fst snd];
     intros Hrun; repeat case_match; simplify_eq; reflexivity
    |]).
  contradiction.
Qed.

Lemma runSteps_keep_options (ss : list Step) :
  (forall s, In s ss -> In s (take 1 steps ++ drop 2 steps)) ->
  forall f e f', runSteps ss f = (e, f') -> o f'.1 = o f.1.
Proof.
  induction ss as [|s ss IH]; intros Hin f e f' Hrun; simpl in Hrun.
  - now injection Hrun as <- <-.
  - destruct (run s f) as [[e1|] f1] eqn:Hs.
    + injection Hrun as <- <-.
      eapply steps_keep_options; [apply Hin; simpl; auto | exact Hs].
    + transitivity (o f1.1).
      * eapply IH; [|exact Hrun]. intros s' Hs'. apply Hin. simpl. auto.
      * eapply steps_keep_options; [apply Hin; simpl; auto | exact Hs].
Qed.

(** X19: The tag list after [buildImage], however it ends: the initial tags
    followed by the additional tags computed from the tree the package
    installation left and the initial options; the initial tags alone
    when the installation or the computation of the tags failed.  No
    later statement touches the list. *)
Theorem buildImage_tags (bc : Context) :
  Tags (o (buildImage bc).2) =
  match FixateWorld (SourceDateEpoch (o bc)) (fs bc) with
  | (Some _, _) => Tags (o bc)
  | (None, t) =>
    match AdditionalTags t (o bc) with
    | Go.Ok tags => Tags (o bc) ++ tags
    | Go.Err _ => Tags (o bc)
    end
  end.
Proof.
  assert (Q : forall s, In s (drop 2 steps) ->
                        In s (take 1 steps ++ drop 2 steps))
    by (intros s Hs; apply in_or_app; auto).
  assert (Hfin : forall r, Tags (o (finish r).2) = Tags (o r.2.1)).
  { intros [[e|] f]; reflexivity. }
  rewrite buildImage_steps, Hfin.
  change steps with (take 2 steps ++ drop 2 steps).
  rewrite runSteps_app.
  cbn [take steps runSteps run wrap wrapWith].
  unfold lift at 1, onFS at 1. cbn [fst snd fs o setFS].
  destruct (FixateWorld (SourceDateEpoch (o bc)) (fs bc)) as [[e|] t];
    [reflexivity|].
  unfold lift at 1, additionalTags. cbn [fst snd fs o setFS].
  destruct (AdditionalTags t (o bc)) as [tags|e]; [|reflexivity].
  destruct tags as [|tag tags].
  - destruct (runSteps (drop 2 steps) _) as [e f] eqn:Hrest.
    pose proof (runSteps_keep_options _ Q _ _ _ Hrest) as Ho.
    simpl in Ho |- *. rewrite Ho. simpl. now rewrite app_nil_r.
  - destruct (runSteps (drop 2 steps) _) as [e f] eqn:Hrest.
    pose proof (runSteps_keep_options _ Q _ _ _ Hrest) as Ho.
    simpl in Ho |- *. rewrite Ho. reflexivity.
Qed.

End Tags.
